(** * pfcpiface: the UPF runtime context and the PFCP interface agent

    A shallow embedding of [pfcpiface/upf.go] and [pfcpiface/pfcpiface.go].

    Go values are rendered as follows.
    - A pointer that may be [nil] is an [option].
    - An [error] result is an [option error] ([None] is the nil error); a
      pair [(v, err)] is a [result].
    - Code with effects (logging, calls to the backend, calls to the
      operating system, process exit) runs in the monad [M]: it threads a
      [World] holding the trace of observable events and the state of
      the one backend object, and ends in a value, in a process exit
      ([log.Fatalln]), in a run-time panic, or out of fuel (loops that
      are not bounded in the source). *)

From Stdlib Require Import ZArith List String Bool Lia.
From stdpp Require Import gmap strings.
Import ListNotations.

Local Open Scope string_scope.
Local Open Scope Z_scope.

(** ** Errors *)

(** Modelled from the spec: the constructor function [ErrInvalidArgument]
    and the error taxonomy are declared outside the two source files.
    [InvalidArgument] is the "malformed or nil input" class, built by
    [ErrInvalidArgument(name, value)]; [BackendFailure] wraps the
    backend's own error; every other Go error value is a [GoError]. *)
Inductive error : Type :=
| InvalidArgument (name : string)
| BackendFailure (cause : error)
| GoError (msg : string).

Definition ErrInvalidArgument (name : string) : error := InvalidArgument name.

Definition is_InvalidArgument (e : error) : bool :=
  match e with InvalidArgument _ => true | _ => false end.

Definition is_BackendFailure (e : error) : bool :=
  match e with BackendFailure _ => true | _ => false end.

(** A Go pair [(value, err)]. *)
Inductive result (A : Type) : Type :=
| Success (a : A)
| Failure (e : error).
Arguments Success {A} a.
Arguments Failure {A} e.

Definition failed {A} (r : result A) : bool :=
  match r with Failure _ => true | Success _ => false end.

(** ** Data model of upf.go *)

(** [net.IP] is a byte slice; the nil slice is the empty list. *)
Definition IP : Type := list Byte.byte.

(** [time.Duration]: signed 64-bit nanoseconds. *)
Definition Duration : Type := Z.
Definition wrap_int64 (z : Z) : Z := (z + 2^63) mod 2^64 - 2^63.
Definition Second : Duration := 1000000000.

(** QosConfigVal : Qos configured value. *)
Record QosConfigVal : Type := {
  cbs : Z;
  pbs : Z;
  ebs : Z;
  burstDurationMs : Z;
  schedulePriority : Z;
}.

Record UeResource : Type := {
  ue_name : string;
  ue_dnn : string;
}.

Record SliceInfo : Type := {
  slice_name : string;
  uplinkMbr : Z;
  downlinkMbr : Z;
  ulBurstBytes : Z;
  dlBurstBytes : Z;
  ueResList : list UeResource;
}.

(** Modelled from the spec: type [IPPool] is declared outside the two
    source files; "a CIDR block plus a set of currently leased
    addresses". *)
Record IPPool : Type := {
  pool_cidr : string;
  pool_leased : list IP;
}.

(** A buffered Go channel of [uint64]: its capacity, fixed by [make], and
    the elements waiting in it. *)
Record chan_uint64 : Type := {
  chan_cap : Z;
  chan_buf : list Z;
}.

Definition make_chan (capacity : Z) : chan_uint64 :=
  {| chan_cap := capacity; chan_buf := [] |}.

(** The [datapath] interface value.  The two implementing types are
    declared outside the source files; their only values built in the
    sources are [&UP4{}] and [&bess{}], one per process, so the interface
    value is its dynamic type and the object it points to is the one
    backend cell of the [World]. *)
Inductive datapath : Type :=
| UP4
| bess.

Record upf : Type := {
  upf_EnableUeIPAlloc : bool;
  upf_EnableEndMarker : bool;
  upf_EnableFlowMeasure : bool;
  upf_accessIface : string;
  upf_coreIface : string;
  upf_ippoolCidr : string;
  upf_AccessIP : IP;
  upf_CoreIP : IP;
  upf_NodeID : string;
  upf_ippool : option IPPool;
  upf_peers : list string;
  upf_Dnn : string;
  upf_reportNotifyChan : option chan_uint64;
  upf_sliceInfo : option SliceInfo;
  upf_readTimeout : Duration;
  upf_Hostname : string;
  upf_datapath : datapath;
  upf_maxReqRetries : Z;
  upf_respTimeout : Duration;
  upf_enableHBTimer : bool;
  upf_hbInterval : Duration;
}.

(** Don't change these values. *)
Definition tunnelGTPUPort : Z := 2152.
(** src-iface consts. *)
Definition core : Z := 0x2.
Definition access : Z := 0x1.
(** far-id specific directions. *)
Definition n3 : Z := 0x0.
Definition n6 : Z := 0x1.
Definition n9 : Z := 0x2.

(** Field updates ([u.f = v] through the pointer [u]). *)
Definition set_sliceInfo (u : upf) (s : option SliceInfo) : upf :=
  {| upf_EnableUeIPAlloc := upf_EnableUeIPAlloc u;
     upf_EnableEndMarker := upf_EnableEndMarker u;
     upf_EnableFlowMeasure := upf_EnableFlowMeasure u;
     upf_accessIface := upf_accessIface u;
     upf_coreIface := upf_coreIface u;
     upf_ippoolCidr := upf_ippoolCidr u;
     upf_AccessIP := upf_AccessIP u;
     upf_CoreIP := upf_CoreIP u;
     upf_NodeID := upf_NodeID u;
     upf_ippool := upf_ippool u;
     upf_peers := upf_peers u;
     upf_Dnn := upf_Dnn u;
     upf_reportNotifyChan := upf_reportNotifyChan u;
     upf_sliceInfo := s;
     upf_readTimeout := upf_readTimeout u;
     upf_Hostname := upf_Hostname u;
     upf_datapath := upf_datapath u;
     upf_maxReqRetries := upf_maxReqRetries u;
     upf_respTimeout := upf_respTimeout u;
     upf_enableHBTimer := upf_enableHBTimer u;
     upf_hbInterval := upf_hbInterval u |}.

Definition set_peers (u : upf) (ps : list string) : upf :=
  {| upf_EnableUeIPAlloc := upf_EnableUeIPAlloc u;
     upf_EnableEndMarker := upf_EnableEndMarker u;
     upf_EnableFlowMeasure := upf_EnableFlowMeasure u;
     upf_accessIface := upf_accessIface u;
     upf_coreIface := upf_coreIface u;
     upf_ippoolCidr := upf_ippoolCidr u;
     upf_AccessIP := upf_AccessIP u;
     upf_CoreIP := upf_CoreIP u;
     upf_NodeID := upf_NodeID u;
     upf_ippool := upf_ippool u;
     upf_peers := ps;
     upf_Dnn := upf_Dnn u;
     upf_reportNotifyChan := upf_reportNotifyChan u;
     upf_sliceInfo := upf_sliceInfo u;
     upf_readTimeout := upf_readTimeout u;
     upf_Hostname := upf_Hostname u;
     upf_datapath := upf_datapath u;
     upf_maxReqRetries := upf_maxReqRetries u;
     upf_respTimeout := upf_respTimeout u;
     upf_enableHBTimer := upf_enableHBTimer u;
     upf_hbInterval := upf_hbInterval u |}.

Definition set_AccessIP (u : upf) (ip : IP) : upf :=
  {| upf_EnableUeIPAlloc := upf_EnableUeIPAlloc u;
     upf_EnableEndMarker := upf_EnableEndMarker u;
     upf_EnableFlowMeasure := upf_EnableFlowMeasure u;
     upf_accessIface := upf_accessIface u;
     upf_coreIface := upf_coreIface u;
     upf_ippoolCidr := upf_ippoolCidr u;
     upf_AccessIP := ip;
     upf_CoreIP := upf_CoreIP u;
     upf_NodeID := upf_NodeID u;
     upf_ippool := upf_ippool u;
     upf_peers := upf_peers u;
     upf_Dnn := upf_Dnn u;
     upf_reportNotifyChan := upf_reportNotifyChan u;
     upf_sliceInfo := upf_sliceInfo u;
     upf_readTimeout := upf_readTimeout u;
     upf_Hostname := upf_Hostname u;
     upf_datapath := upf_datapath u;
     upf_maxReqRetries := upf_maxReqRetries u;
     upf_respTimeout := upf_respTimeout u;
     upf_enableHBTimer := upf_enableHBTimer u;
     upf_hbInterval := upf_hbInterval u |}.

Definition set_CoreIP (u : upf) (ip : IP) : upf :=
  {| upf_EnableUeIPAlloc := upf_EnableUeIPAlloc u;
     upf_EnableEndMarker := upf_EnableEndMarker u;
     upf_EnableFlowMeasure := upf_EnableFlowMeasure u;
     upf_accessIface := upf_accessIface u;
     upf_coreIface := upf_coreIface u;
     upf_ippoolCidr := upf_ippoolCidr u;
     upf_AccessIP := upf_AccessIP u;
     upf_CoreIP := ip;
     upf_NodeID := upf_NodeID u;
     upf_ippool := upf_ippool u;
     upf_peers := upf_peers u;
     upf_Dnn := upf_Dnn u;
     upf_reportNotifyChan := upf_reportNotifyChan u;
     upf_sliceInfo := upf_sliceInfo u;
     upf_readTimeout := upf_readTimeout u;
     upf_Hostname := upf_Hostname u;
     upf_datapath := upf_datapath u;
     upf_maxReqRetries := upf_maxReqRetries u;
     upf_respTimeout := upf_respTimeout u;
     upf_enableHBTimer := upf_enableHBTimer u;
     upf_hbInterval := upf_hbInterval u |}.

Definition set_respTimeout (u : upf) (d : Duration) : upf :=
  {| upf_EnableUeIPAlloc := upf_EnableUeIPAlloc u;
     upf_EnableEndMarker := upf_EnableEndMarker u;
     upf_EnableFlowMeasure := upf_EnableFlowMeasure u;
     upf_accessIface := upf_accessIface u;
     upf_coreIface := upf_coreIface u;
     upf_ippoolCidr := upf_ippoolCidr u;
     upf_AccessIP := upf_AccessIP u;
     upf_CoreIP := upf_CoreIP u;
     upf_NodeID := upf_NodeID u;
     upf_ippool := upf_ippool u;
     upf_peers := upf_peers u;
     upf_Dnn := upf_Dnn u;
     upf_reportNotifyChan := upf_reportNotifyChan u;
     upf_sliceInfo := upf_sliceInfo u;
     upf_readTimeout := upf_readTimeout u;
     upf_Hostname := upf_Hostname u;
     upf_datapath := upf_datapath u;
     upf_maxReqRetries := upf_maxReqRetries u;
     upf_respTimeout := d;
     upf_enableHBTimer := upf_enableHBTimer u;
     upf_hbInterval := upf_hbInterval u |}.

Definition set_hbInterval (u : upf) (d : Duration) : upf :=
  {| upf_EnableUeIPAlloc := upf_EnableUeIPAlloc u;
     upf_EnableEndMarker := upf_EnableEndMarker u;
     upf_EnableFlowMeasure := upf_EnableFlowMeasure u;
     upf_accessIface := upf_accessIface u;
     upf_coreIface := upf_coreIface u;
     upf_ippoolCidr := upf_ippoolCidr u;
     upf_AccessIP := upf_AccessIP u;
     upf_CoreIP := upf_CoreIP u;
     upf_NodeID := upf_NodeID u;
     upf_ippool := upf_ippool u;
     upf_peers := upf_peers u;
     upf_Dnn := upf_Dnn u;
     upf_reportNotifyChan := upf_reportNotifyChan u;
     upf_sliceInfo := upf_sliceInfo u;
     upf_readTimeout := upf_readTimeout u;
     upf_Hostname := upf_Hostname u;
     upf_datapath := upf_datapath u;
     upf_maxReqRetries := upf_maxReqRetries u;
     upf_respTimeout := upf_respTimeout u;
     upf_enableHBTimer := upf_enableHBTimer u;
     upf_hbInterval := d |}.

Definition set_ippool (u : upf) (p : option IPPool) : upf :=
  {| upf_EnableUeIPAlloc := upf_EnableUeIPAlloc u;
     upf_EnableEndMarker := upf_EnableEndMarker u;
     upf_EnableFlowMeasure := upf_EnableFlowMeasure u;
     upf_accessIface := upf_accessIface u;
     upf_coreIface := upf_coreIface u;
     upf_ippoolCidr := upf_ippoolCidr u;
     upf_AccessIP := upf_AccessIP u;
     upf_CoreIP := upf_CoreIP u;
     upf_NodeID := upf_NodeID u;
     upf_ippool := p;
     upf_peers := upf_peers u;
     upf_Dnn := upf_Dnn u;
     upf_reportNotifyChan := upf_reportNotifyChan u;
     upf_sliceInfo := upf_sliceInfo u;
     upf_readTimeout := upf_readTimeout u;
     upf_Hostname := upf_Hostname u;
     upf_datapath := upf_datapath u;
     upf_maxReqRetries := upf_maxReqRetries u;
     upf_respTimeout := upf_respTimeout u;
     upf_enableHBTimer := upf_enableHBTimer u;
     upf_hbInterval := upf_hbInterval u |}.

(** ** Configuration

    Type [Conf] is declared outside the two source files; these are the
    fields the sources read, with the types their uses fix. *)
Record IfaceType : Type := {
  IfName : string;
}.

Record CPIfaceInfo : Type := {
  cp_NodeID : string;
  cp_UseFQDN : bool;
  cp_EnableUeIPAlloc : bool;
  cp_UEIPPool : string;
  cp_Dnn : string;
  cp_Peers : list string;
  cp_HTTPPort : string;
}.

Record Conf : Type := {
  conf_AccessIface : IfaceType;
  conf_CoreIface : IfaceType;
  conf_CPIface : CPIfaceInfo;
  conf_EnableP4rt : bool;
  conf_EnableFlowMeasure : bool;
  conf_EnableEndMarker : bool;
  conf_ReadTimeout : Z;
  conf_MaxReqRetries : Z;
  conf_RespTimeout : string;
  conf_EnableHBTimer : bool;
  conf_HeartBeatInterval : string;
}.

(** ** The outside world *)

(** The global [simulate] flag; its methods [enable] and [keepGoing] are
    declared outside the source files and are taken as its two
    observable booleans. *)
Record simMode : Type := {
  sim_enable : bool;
  sim_keepGoing : bool;
}.

(** One entry of [net.InterfaceAddrs()]: whether it is a [*net.IPNet],
    whether its address is a loopback, whether it converts to IPv4, and
    its printed form. *)
Record Addr : Type := {
  addr_isIPNet : bool;
  addr_isLoopback : bool;
  addr_isV4 : bool;
  addr_String : string;
}.

(** What the operating system, the Go libraries and the packages outside
    the sources answer. *)
Record Env : Type := {
  env_FqdnHostname : result string;
  env_LookupHost : string -> result (list string);
  env_GetUnicastAddressFromInterface : string -> result IP;
  env_ParseDuration : string -> result Duration;
  env_NewIPPool : string -> result IPPool;
  env_simulate : simMode;
  env_setupProm : option error;
  env_ListenAndServe : error;
  env_InterfaceAddrs : result (list Addr);
  env_NewRequest : option error;
  (** the answer to the [n]-th call of [client.Do], counted from 0 *)
  env_clientDo : nat -> option error;
  env_httpShutdown : option error;
}.

Inductive LogLevel : Type := LvFatal | LvError | LvWarn | LvInfo.

Inductive Signal : Type := SIGHUP | SIGINT | SIGQUIT | SIGKILL | SIGTERM.

Definition Signal_eqb (a b : Signal) : bool :=
  match a, b with
  | SIGHUP, SIGHUP | SIGINT, SIGINT | SIGQUIT, SIGQUIT
  | SIGKILL, SIGKILL | SIGTERM, SIGTERM => true
  | _, _ => false
  end.

(** The goroutines started by [Run]. *)
Inductive Goroutine : Type := GoHttpServer | GoSignalWaiter.

Record Request : Type := {
  req_method : string;
  req_url : string;
  req_body : string;
  req_header : list (string * string);
}.

Inductive printable : Type :=
| PStr (s : string)
| PIP (ip : IP).

(** Observable events, in program order. *)
Inductive Event : Type :=
| EvLog (lvl : LogLevel) (msg : string) (err : option error)
| EvPrint (args : list printable)
| EvFqdnHostname (r : result string)
| EvLookupHost (name : string) (r : result (list string))
| EvGetUnicastAddress (ifname : string) (r : result IP)
| EvParseDuration (s : string) (r : result Duration)
| EvNewIPPool (cidr : string) (r : result IPPool)
| EvIsConnected (ip : IP)
| EvAddSliceInfo (u : upf) (s : SliceInfo)
| EvSetUpfInfo (u : upf) (conf : Conf)
| EvSim
| EvLock
| EvUnlock
| EvNewPFCPNode
| EvSetupConfigHandler
| EvSetupProm (r : option error)
| EvGo (g : Goroutine)
| EvSignalNotify (s : Signal)
| EvListenAndServe
| EvHttpShutdown (r : option error)
| EvCancel
| EvNodeServe
| EvNodeStop
| EvNodeDone
| EvInterfaceAddrs
| EvClientDo (req : Request) (r : option error)
| EvSleep (d : Duration).

(** The [datapath] interface: the methods the two source files call.  A
    method acts on the backend object's own state [B].  The backend keeps
    the pointer to the runtime context that [SetUpfInfo] hands it, so
    [AddSliceInfo] may read the context as it is when the call is made;
    the event of the call records that context. *)
Class DatapathOps (B : Type) : Type := {
  dp_new : datapath -> B;
  dp_IsConnected : datapath -> B -> IP -> bool;
  dp_AddSliceInfo : datapath -> B -> upf -> SliceInfo -> B * option error;
  dp_SetUpfInfo : datapath -> B -> upf -> Conf -> B;
}.

Record World (B : Type) : Type := {
  w_trace : list Event;
  w_backend : B;
}.
Arguments w_trace {B} w.
Arguments w_backend {B} w.

(** How a computation ends. *)
Inductive Outcome (A : Type) : Type :=
| Ret (a : A)
| Exit (code : Z)
| Panic (msg : string)
| OutOfFuel.
Arguments Ret {A} a.
Arguments Exit {A} code.
Arguments Panic {A} msg.
Arguments OutOfFuel {A}.

Definition M (B A : Type) : Type := World B -> World B * Outcome A.

Definition ret {B A} (a : A) : M B A := fun w => (w, Ret a).

Definition bind {B A C} (m : M B A) (k : A -> M B C) : M B C :=
  fun w =>
    match m w with
    | (w', Ret a) => k a w'
    | (w', Exit c) => (w', Exit c)
    | (w', Panic s) => (w', Panic s)
    | (w', OutOfFuel) => (w', OutOfFuel)
    end.

Notation "x <- c1 ;; c2" := (bind c1 (fun x => c2))
  (at level 100, c1 at next level, right associativity).
Notation "c1 ;; c2" := (bind c1 (fun _ => c2))
  (at level 100, right associativity).

Definition emit {B} (e : Event) : M B unit :=
  fun w => ({| w_trace := (w_trace w ++ [e])%list; w_backend := w_backend w |}, Ret tt).

Definition panic {B A} (msg : string) : M B A := fun w => (w, Panic msg).

Definition out_of_fuel {B A} : M B A := fun w => (w, OutOfFuel).

(** [log.Fatalln]: the message is written, then [os.Exit(1)]; deferred
    calls do not run. *)
Definition log_Fatalln {B A} (msg : string) (err : option error) : M B A :=
  fun w => ({| w_trace := (w_trace w ++ [EvLog LvFatal msg err])%list;
               w_backend := w_backend w |}, Exit 1).

Definition log_Errorln {B} (msg : string) (err : option error) : M B unit :=
  emit (EvLog LvError msg err).
Definition log_Warnln {B} (msg : string) : M B unit :=
  emit (EvLog LvWarn msg None).
Definition log_Infoln {B} (msg : string) : M B unit :=
  emit (EvLog LvInfo msg None).
Definition Println {B} (args : list printable) : M B unit :=
  emit (EvPrint args).

(** The trace a computation adds and how it ends, from a given world. *)
Definition run {B A} (m : M B A) (w : World B) : World B * Outcome A := m w.
Definition outcome {B A} (m : M B A) (w : World B) : Outcome A := snd (m w).
Definition world_after {B A} (m : M B A) (w : World B) : World B := fst (m w).

Definition exits {A} (o : Outcome A) : bool :=
  match o with Exit _ => true | _ => false end.

(** Go's [make([]string, n)] and [copy(dst, src)]. *)
Definition make_strings (n : nat) : list string := repeat "" n.

Definition go_copy (dst src : list string) : list string * nat :=
  let n := Nat.min (length dst) (length src) in
  ((firstn n src ++ skipn n dst)%list, n).

(** ** upf.go *)

Section Upf.
Context {B : Type} `{DatapathOps B}.
Variable env : Env.

(** Calls that leave the program: each one is recorded with its answer. *)
Definition FqdnHostname : M B (result string) :=
  let r := env_FqdnHostname env in
  emit (EvFqdnHostname r) ;; ret r.

Definition LookupHost (name : string) : M B (result (list string)) :=
  let r := env_LookupHost env name in
  emit (EvLookupHost name r) ;; ret r.

Definition GetUnicastAddressFromInterface (ifname : string) : M B (result IP) :=
  let r := env_GetUnicastAddressFromInterface env ifname in
  emit (EvGetUnicastAddress ifname r) ;; ret r.

Definition ParseDuration (s : string) : M B (result Duration) :=
  let r := env_ParseDuration env s in
  emit (EvParseDuration s r) ;; ret r.

Definition NewIPPool (cidr : string) : M B (result IPPool) :=
  let r := env_NewIPPool env cidr in
  emit (EvNewIPPool cidr r) ;; ret r.


Definition AddSliceInfo (u : upf) (s : SliceInfo) : M B (option error) :=
  fun w =>
    let '(b, e) := dp_AddSliceInfo (upf_datapath u) (w_backend w) u s in
    ({| w_trace := (w_trace w ++ [EvAddSliceInfo u s])%list; w_backend := b |},
     Ret e).

Definition SetUpfInfo (fp : datapath) (u : upf) (conf : Conf) : M B unit :=
  fun w =>
    ({| w_trace := (w_trace w ++ [EvSetUpfInfo u conf])%list;
        w_backend := dp_SetUpfInfo fp (w_backend w) u conf |},
     Ret tt).


(** [addSliceInfo] has a pointer receiver: the [upf] it returns is the
    receiver after the call. *)
Definition addSliceInfo (u : upf) (sliceInfo : option SliceInfo)
  : M B (upf * option error) :=
  match sliceInfo with
  | None => ret (u, Some (ErrInvalidArgument "sliceInfo"))
  | Some s =>
      let u := set_sliceInfo u (Some s) in
      e <- AddSliceInfo u s ;;
      ret (u, e)
  end.

Definition NewUPF (conf : Conf) (fp : datapath) : M B (option upf) :=
  let cp := conf_CPIface conf in
  let nodeID := cp_NodeID cp in
  nodeID <-
    (if cp_UseFQDN cp && String.eqb nodeID ""
     then r <- FqdnHostname ;;
          match r with
          | Failure err => log_Fatalln "Unable to get hostname" (Some err)
          | Success h => ret h
          end
     else ret nodeID) ;;
  (* TODO: Delete this once CI config is fixed *)
  nodeID <-
    (if negb (String.eqb nodeID "")
     then r <- LookupHost nodeID ;;
          match r with
          | Failure err => log_Fatalln "Unable to resolve hostname" (Some err)
          | Success hosts =>
              match hosts with
              | [] => panic "index out of range [0] with length 0"
              | h :: _ => ret h
              end
          end
     else ret nodeID) ;;
  let u :=
    {| upf_EnableUeIPAlloc := cp_EnableUeIPAlloc cp;
       upf_EnableEndMarker := conf_EnableEndMarker conf;
       upf_EnableFlowMeasure := conf_EnableFlowMeasure conf;
       upf_accessIface := IfName (conf_AccessIface conf);
       upf_coreIface := IfName (conf_CoreIface conf);
       upf_ippoolCidr := cp_UEIPPool cp;
       upf_AccessIP := [];
       upf_CoreIP := [];
       upf_NodeID := nodeID;
       upf_ippool := None;
       upf_peers := cp_Peers cp;
       upf_Dnn := cp_Dnn cp;
       upf_reportNotifyChan := Some (make_chan 1024);
       upf_sliceInfo := None;
       upf_readTimeout := wrap_int64 (Second * wrap_int64 (conf_ReadTimeout conf));
       upf_Hostname := cp_NodeID cp;
       upf_datapath := fp;
       upf_maxReqRetries := conf_MaxReqRetries conf;
       upf_respTimeout := 0;
       upf_enableHBTimer := conf_EnableHBTimer conf;
       upf_hbInterval := 0 |} in
  u <-
    (if (0 <? length (cp_Peers cp))%nat
     then let '(peers, nc) := go_copy (make_strings (length (cp_Peers cp)))
                                      (cp_Peers cp) in
          let u := set_peers u peers in
          (if (nc =? 0)%nat
           then log_Warnln "Failed to parse cpiface peers, PFCP Agent will not initiate connection to N4 peers."
           else ret tt) ;;
          ret u
     else ret u) ;;
  ou <-
    (if negb (conf_EnableP4rt conf)
     then r <- GetUnicastAddressFromInterface (IfName (conf_AccessIface conf)) ;;
          match r with
          | Failure err => log_Errorln "" (Some err) ;; ret None
          | Success ip =>
              let u := set_AccessIP u ip in
              r <- GetUnicastAddressFromInterface (IfName (conf_CoreIface conf)) ;;
              match r with
              | Failure err => log_Errorln "" (Some err) ;; ret None
              | Success ip => ret (Some (set_CoreIP u ip))
              end
          end
     else ret (Some u)) ;;
  match ou with
  | None => ret None
  | Some u =>
      r <- ParseDuration (conf_RespTimeout conf) ;;
      u <- match r with
           | Failure _ => log_Fatalln "Unable to parse resp_timeout" None
           | Success d => ret (set_respTimeout u d)
           end ;;
      u <-
        (if upf_enableHBTimer u
         then if negb (String.eqb (conf_HeartBeatInterval conf) "")
              then r <- ParseDuration (conf_HeartBeatInterval conf) ;;
                   match r with
                   | Failure _ => log_Fatalln "Unable to parse heart_beat_interval" None
                   | Success d => ret (set_hbInterval u d)
                   end
              else ret u
         else ret u) ;;
      u <-
        (if upf_EnableUeIPAlloc u
         then r <- NewIPPool (upf_ippoolCidr u) ;;
              match r with
              | Failure err => log_Fatalln "ip pool init failed" (Some err)
              | Success pool => ret (set_ippool u (Some pool))
              end
         else ret u) ;;
      SetUpfInfo (upf_datapath u) u conf ;;
      Println [PStr "upf info :"] ;;
      Println [PStr "dnn = "; PStr (upf_Dnn u)] ;;
      Println [PStr "AccessIP = "; PIP (upf_AccessIP u)] ;;
      Println [PStr "CoreIP = "; PIP (upf_CoreIP u)] ;;
      Println [PStr "nodeID = "; PStr (upf_NodeID u)] ;;
      ret (Some u)
  end.

End Upf.

(** ** pfcpiface.go *)

(** Types [PFCPNode], [upfCollector] and [PfcpNodeCollector] are declared
    outside the source files; a node is known here by the runtime context
    it was built over. *)
Record PFCPNode : Type := {
  node_upf : option upf;
}.

Record HttpServer : Type := {
  srv_Addr : string;
  srv_ReadHeaderTimeout : Duration;
}.

(** The mutex [mu] is held between the events [EvLock] and [EvUnlock]. *)
Record PFCPIface : Type := {
  p_conf : Conf;
  p_node : option PFCPNode;
  p_fp : datapath;
  p_upf : option upf;
  p_httpSrv : option HttpServer;
  p_httpEndpoint : string;
  p_collectors : bool;
}.

Definition set_node (p : PFCPIface) (n : option PFCPNode) : PFCPIface :=
  {| p_conf := p_conf p; p_node := n; p_fp := p_fp p; p_upf := p_upf p;
     p_httpSrv := p_httpSrv p; p_httpEndpoint := p_httpEndpoint p;
     p_collectors := p_collectors p |}.

Definition set_collectors (p : PFCPIface) (c : bool) : PFCPIface :=
  {| p_conf := p_conf p; p_node := p_node p; p_fp := p_fp p; p_upf := p_upf p;
     p_httpSrv := p_httpSrv p; p_httpEndpoint := p_httpEndpoint p;
     p_collectors := c |}.

Definition set_httpSrv (p : PFCPIface) (s : option HttpServer) : PFCPIface :=
  {| p_conf := p_conf p; p_node := p_node p; p_fp := p_fp p; p_upf := p_upf p;
     p_httpSrv := s; p_httpEndpoint := p_httpEndpoint p;
     p_collectors := p_collectors p |}.

Record PfcpInfo : Type := {
  Ip : string;
}.

(** The double-quote character. *)
Definition dquote : string :=
  String (Ascii.Ascii false true false false false true false false) EmptyString.

(** [json.Marshal] of a [PfcpInfo] whose address needs no escaping (the
    printed form of an IPv4 address, or the empty string). *)
Definition json_Marshal (i : PfcpInfo) : string :=
  "{" ++ dquote ++ "ip" ++ dquote ++ ":" ++ dquote ++ Ip i ++ dquote ++ "}".

Definition MethodPost : string := "POST".

(** [http.ErrServerClosed] and [errors.Is] against it. *)
Definition ErrServerClosed : error := GoError "http: Server closed".


(** The loop of [GetLocalIP]. *)
Fixpoint first_non_loopback_v4 (addrs : list Addr) : string :=
  match addrs with
  | [] => ""
  | a :: rest =>
      if addr_isIPNet a && negb (addr_isLoopback a)
      then if addr_isV4 a then addr_String a else first_non_loopback_v4 rest
      else first_non_loopback_v4 rest
  end.

(** Go's [defer]: the deferred call runs when the body returns or
    panics, and does not run when the process exits. *)
Definition with_defer {B A} (deferred : M B unit) (body : M B A) : M B A :=
  fun w =>
    match body w with
    | (w', Ret a) =>
        match deferred w' with
        | (w'', Ret _) => (w'', Ret a)
        | (w'', Exit c) => (w'', Exit c)
        | (w'', Panic s) => (w'', Panic s)
        | (w'', OutOfFuel) => (w'', OutOfFuel)
        end
    | (w', Panic s) => (fst (deferred w'), Panic s)
    | (w', Exit c) => (w', Exit c)
    | (w', OutOfFuel) => (w', OutOfFuel)
    end.

Definition nil_dereference : string :=
  "invalid memory address or nil pointer dereference".

Section Iface.
Context {B : Type} `{DatapathOps B}.
Variable env : Env.

(** [&UP4{}] or [&bess{}]: the backend object comes into being. *)
Definition new_backend (fp : datapath) : M B unit :=
  fun w => ({| w_trace := w_trace w; w_backend := dp_new fp |}, Ret tt).

Definition NewPFCPIface (conf : Conf) : M B PFCPIface :=
  let fp := if conf_EnableP4rt conf then UP4 else bess in
  new_backend fp ;;
  let httpPort :=
    if negb (String.eqb (cp_HTTPPort (conf_CPIface conf)) "")
    then cp_HTTPPort (conf_CPIface conf)
    else "8080" in
  let httpEndpoint := ":" ++ httpPort in
  u <- NewUPF env conf fp ;;
  ret {| p_conf := conf; p_node := None; p_fp := fp; p_upf := u;
         p_httpSrv := None; p_httpEndpoint := httpEndpoint;
         p_collectors := false |}.

Definition mustInit (p : PFCPIface) : M B PFCPIface :=
  emit EvLock ;;
  with_defer (emit EvUnlock)
    (emit EvNewPFCPNode ;;
     let p := set_node p (Some {| node_upf := p_upf p |}) in
     emit EvSetupConfigHandler ;;
     let err := env_setupProm env in
     emit (EvSetupProm err) ;;
     p <- match err with
          | Some e => log_Fatalln "setupProm failed" (Some e)
          | None => ret (set_collectors p true)
          end ;;
     (* the ReadHeaderTimeout is set to the same value as in nginx *)
     ret (set_httpSrv p (Some {| srv_Addr := p_httpEndpoint p;
                                 srv_ReadHeaderTimeout := 60 * Second |}))).

(** Stop sends cancellation signal to main Go routine and waits for
    shutdown to complete. *)
Definition Stop (p : PFCPIface) : M B PFCPIface :=
  emit EvLock ;;
  with_defer (emit EvUnlock)
    (with_defer (emit EvCancel)
       (match p_httpSrv p with
        | None => panic nil_dereference
        | Some _ =>
            let err := env_httpShutdown env in
            emit (EvHttpShutdown err) ;;
            match err with
            | Some e => log_Errorln "Failed to shutdown http: " (Some e)
            | None => ret tt
            end
        end ;;
        match p_node p with
        | None => panic nil_dereference
        | Some _ =>
            emit EvNodeStop ;;
            (* Wait for PFCP node shutdown *)
            emit EvNodeDone ;;
            ret p
        end)).

(** GetLocalIP returns ip of first non loopback interface in string *)
Definition GetLocalIP : M B string :=
  emit EvInterfaceAddrs ;;
  match env_InterfaceAddrs env with
  | Failure _ => ret ""
  | Success addrs => ret (first_non_loopback_v4 addrs)
  end.

(** The loop [for !done] of [PushPFCPInfoNew]; [n] counts the calls of
    [client.Do] made so far.  The client's timeout of ten seconds bounds
    each call: a call that times out is a call that fails. *)
Fixpoint PushPFCPInfoNew_loop (fuel : nat) (req : Request) (n : nat) : M B unit :=
  match fuel with
  | O => out_of_fuel
  | S fuel' =>
      let err := env_clientDo env n in
      emit (EvClientDo req err) ;;
      match err with
      | Some e =>
          log_Errorln "client: error making http request: " (Some e) ;;
          emit (EvSleep (1 * Second)) ;;
          PushPFCPInfoNew_loop fuel' req (S n)
      | None => ret tt
      end
  end.

Definition PushPFCPInfoNew (fuel : nat) : M B unit :=
  (* get IP *)
  ip_str <- GetLocalIP ;;
  let pfcpInfo := {| Ip := ip_str |} in
  Println [PStr "parham log : local ip = "; PStr ip_str] ;;
  let pfcpInfoJson := json_Marshal pfcpInfo in
  Println [PStr "parham log : json encoded pfcpInfo ["; PStr pfcpInfoJson; PStr "] "] ;;
  (* change the IP here *)
  let requestURL := "http://upf-http:8081/v1/register/pcfp" in
  let jsonBody := pfcpInfoJson in
  req <- match env_NewRequest env with
         | Some e =>
             log_Errorln "client: could not create request: " (Some e) ;;
             ret None
         | None =>
             ret (Some {| req_method := MethodPost; req_url := requestURL;
                          req_body := jsonBody; req_header := [] |})
         end ;;
  match req with
  | None => panic nil_dereference
  | Some req =>
      let req :=
        {| req_method := req_method req; req_url := req_url req;
           req_body := req_body req;
           req_header := [("Content-Type", "application/json")] |} in
      PushPFCPInfoNew_loop fuel req 0
  end.


Definition signalWaiter_goroutine (p : PFCPIface) (oscall : Signal)
  : M B PFCPIface :=
  log_Infoln "System call received" ;;
  Stop p.

Definition Run (fuel : nat) (p : PFCPIface) : M B PFCPIface :=
  stop <-
    (if sim_enable (env_simulate env)
     then emit EvSim ;;
          ret (negb (sim_keepGoing (env_simulate env)))
     else ret false) ;;
  if (stop : bool) then ret p
  else
    p <- mustInit p ;;
    emit (EvGo GoHttpServer) ;;
    emit (EvSignalNotify SIGINT) ;;
    emit (EvSignalNotify SIGTERM) ;;
    emit (EvGo GoSignalWaiter) ;;
    Println [PStr "parham log : calling PushPFCPInfoNew"] ;;
    PushPFCPInfoNew fuel ;;
    (* blocking *)
    emit EvNodeServe ;;
    ret p.

End Iface.

(** The signals a trace has registered with [signal.Notify], and whether
    the signal channel of [Run] receives a given signal. *)
Fixpoint notified (t : list Event) : list Signal :=
  match t with
  | [] => []
  | EvSignalNotify s :: t' => s :: notified t'
  | _ :: t' => notified t'
  end.

Definition delivered (t : list Event) (s : Signal) : bool :=
  existsb (Signal_eqb s) (notified t).

(** ** The session store *)

Record PFCPConn : Type := {
  conn_peer : string;
}.

(** Modelled from the spec: type [PFCPSession] is declared outside the
    source files; a session is "identified by a 64-bit F-SEID" and
    "contains the set of PDRs, FARs and QERs negotiated with the peer". *)
Record PFCPSession : Type := {
  localSEID : N;
  pdrs : list N;
  fars : list N;
  qers : list N;
}.

Definition zero_session : PFCPSession :=
  {| localSEID := 0; pdrs := []; fars := []; qers := [] |}.

Section SessionsStore.
(** The backend as the store sees it: programming the rules of one
    session changes the backend and may fail with the backend's own
    error. *)
Variable Bk : Type.
Variable ProgramSession : Bk -> PFCPSession -> Bk * option error.

(** Modelled from the spec: the sources declare the interface
    [SessionsStore] and no implementation of it.  [PutSession] "inserts
    a new session or replaces an existing one keyed by F-SEID.  When
    pushRulesToBackend is true, the call synchronously programs the
    PDRs/FARs/QERs into the Datapath Backend before the store mutation
    is considered committed; on backend failure the store is left
    unchanged and an error is returned identifying the backend
    failure"; the message kind is "not for control flow". *)
Definition PutSession (st : gmap N PFCPSession) (bk : Bk)
    (session : PFCPSession) (pConn : option PFCPConn)
    (pushPDR : bool) (msgType : Z)
  : gmap N PFCPSession * Bk * option error :=
  if pushPDR
  then match ProgramSession bk session with
       | (bk', Some cause) => (st, bk', Some (BackendFailure cause))
       | (bk', None) => (<[localSEID session := session]> st, bk', None)
       end
  else (<[localSEID session := session]> st, bk, None).

(** Modelled from the spec: [GetSession] is a "non-mutating snapshot
    read" returning the session and whether it was found. *)
Definition GetSession (st : gmap N PFCPSession) (fseid : N)
  : PFCPSession * bool :=
  match st !! fseid with
  | Some s => (s, true)
  | None => (zero_session, false)
  end.

End SessionsStore.

(** ** Sample instances

    One concrete backend, environment and configuration, on which the
    definitions above can be run. *)

(** A backend that remembers the slices it was given and refuses a slice
    without uplink rate. *)
#[export] Instance sample_ops : DatapathOps (list SliceInfo) := {
  dp_new := fun _ => [];
  dp_IsConnected := fun _ _ _ => true;
  dp_AddSliceInfo := fun _ b _ s =>
    if uplinkMbr s =? 0
    then (b, Some (GoError "no uplink rate"))
    else (s :: b, None);
  dp_SetUpfInfo := fun _ b _ _ => b;
}.

Definition sample_world : World (list SliceInfo) :=
  {| w_trace := []; w_backend := [] |}.

Definition sample_slice (mbr : Z) : SliceInfo :=
  {| slice_name := "slice1"; uplinkMbr := mbr; downlinkMbr := 100;
     ulBurstBytes := 10; dlBurstBytes := 10;
     ueResList := [{| ue_name := "group1"; ue_dnn := "internet" |}] |}.

Definition sample_cp : CPIfaceInfo :=
  {| cp_NodeID := ""; cp_UseFQDN := false; cp_EnableUeIPAlloc := false;
     cp_UEIPPool := "10.0.0.0/30"; cp_Dnn := "internet";
     cp_Peers := ["smf"]; cp_HTTPPort := "" |}.

Definition sample_conf (p4rt hb : bool) (resp hbi : string) : Conf :=
  {| conf_AccessIface := {| IfName := "access" |};
     conf_CoreIface := {| IfName := "core" |};
     conf_CPIface := sample_cp;
     conf_EnableP4rt := p4rt;
     conf_EnableFlowMeasure := false;
     conf_EnableEndMarker := false;
     conf_ReadTimeout := 15;
     conf_MaxReqRetries := 5;
     conf_RespTimeout := resp;
     conf_EnableHBTimer := hb;
     conf_HeartBeatInterval := hbi |}.

(** An environment in which the interface "access" has an address and
    "core" has none, "2s" and "5s" are the durations that parse, and the
    [k]-th call of [client.Do] is the first to succeed ([None]: no call
    ever succeeds). *)
Definition sample_env (first_ok : option nat) : Env :=
  {| env_FqdnHostname := Success "upf.local";
     env_LookupHost := fun _ => Success ["10.0.0.1"];
     env_GetUnicastAddressFromInterface := fun ifname =>
       if String.eqb ifname "access"
       then Success [Byte.x0a; Byte.x00; Byte.x00; Byte.x01]
       else Failure (GoError "no unicast address");
     env_ParseDuration := fun s =>
       if String.eqb s "2s" then Success (2 * Second)
       else if String.eqb s "5s" then Success (5 * Second)
       else Failure (GoError "time: invalid duration");
     env_NewIPPool := fun cidr => Success {| pool_cidr := cidr; pool_leased := [] |};
     env_simulate := {| sim_enable := false; sim_keepGoing := false |};
     env_setupProm := None;
     env_ListenAndServe := ErrServerClosed;
     env_InterfaceAddrs :=
       Success [{| addr_isIPNet := true; addr_isLoopback := true;
                   addr_isV4 := true; addr_String := "127.0.0.1" |};
                {| addr_isIPNet := true; addr_isLoopback := false;
                   addr_isV4 := true; addr_String := "10.0.0.1" |}];
     env_NewRequest := None;
     env_clientDo := fun n =>
       match first_ok with
       | Some k => if (n <? k)%nat then Some (GoError "connection refused") else None
       | None => Some (GoError "connection refused")
       end;
     env_httpShutdown := None |}.


(** A runtime context as [NewUPF] builds it, given directly. *)
Definition sample_upf : upf :=
  {| upf_EnableUeIPAlloc := false; upf_EnableEndMarker := false;
     upf_EnableFlowMeasure := false; upf_accessIface := "access";
     upf_coreIface := "core"; upf_ippoolCidr := "10.0.0.0/30";
     upf_AccessIP := []; upf_CoreIP := []; upf_NodeID := "";
     upf_ippool := None; upf_peers := ["smf"]; upf_Dnn := "internet";
     upf_reportNotifyChan := Some (make_chan 1024);
     upf_sliceInfo := Some (sample_slice 7);
     upf_readTimeout := 15 * Second; upf_Hostname := "";
     upf_datapath := UP4; upf_maxReqRetries := 5;
     upf_respTimeout := 2 * Second; upf_enableHBTimer := false;
     upf_hbInterval := 0 |}.

Definition sample_iface : PFCPIface :=
  {| p_conf := sample_conf true false "2s" "";
     p_node := Some {| node_upf := Some sample_upf |};
     p_fp := UP4; p_upf := Some sample_upf;
     p_httpSrv := Some {| srv_Addr := ":8080"; srv_ReadHeaderTimeout := 60 * Second |};
     p_httpEndpoint := ":8080"; p_collectors := true |}.

(** A store backend that refuses a session without rules. *)
Definition sample_ProgramSession (bk : list N) (s : PFCPSession)
  : list N * option error :=
  match pdrs s with
  | [] => (bk, Some (GoError "no rules"))
  | _ => (localSEID s :: bk, None)
  end.

Definition sample_session (id : N) (rules : list N) : PFCPSession :=
  {| localSEID := id; pdrs := rules; fars := []; qers := [] |}.

(** ** Predicates used in the statements *)

(** Whether a trace records an interface address lookup that failed. *)
Definition unicast_failed (t : list Event) : bool :=
  existsb (fun e => match e with
                    | EvGetUnicastAddress _ (Failure _) => true
                    | _ => false
                    end) t.

(** Whether a trace records a call of [client.Do] that succeeded. *)
Definition post_succeeded (t : list Event) : bool :=
  existsb (fun e => match e with
                    | EvClientDo _ None => true
                    | _ => false
                    end) t.

Definition is_NodeServe (e : Event) : bool :=
  match e with EvNodeServe => true | _ => false end.

(** Whether the node identity comes out of the first two steps of
    [NewUPF]: the host name is obtained when it is needed, and the
    identity, when it is not empty, resolves to an address. *)
Definition node_identity_resolves (env : Env) (conf : Conf) : bool :=
  let cp := conf_CPIface conf in
  match (if cp_UseFQDN cp && String.eqb (cp_NodeID cp) ""
         then env_FqdnHostname env
         else Success (cp_NodeID cp)) with
  | Failure _ => false
  | Success nodeID =>
      match (if negb (String.eqb nodeID "")
             then env_LookupHost env nodeID
             else Success [nodeID]) with
      | Success (_ :: _) => true
      | _ => false
      end
  end.

(** The conditions under which [NewUPF] returns nil, in words: the node
    identity resolves, the software-pipeline backend is selected, and the
    address of the access or of the core interface is not found. *)
Definition NewUPF_returns_nil (env : Env) (conf : Conf) : bool :=
  node_identity_resolves env conf
  && negb (conf_EnableP4rt conf)
  && (failed (env_GetUnicastAddressFromInterface env
                (IfName (conf_AccessIface conf)))
      || failed (env_GetUnicastAddressFromInterface env
                   (IfName (conf_CoreIface conf)))).

(** The startup conditions under which [NewUPF] ends the process, in
    words: the host name is needed and cannot be obtained; the node
    identity is not empty and cannot be resolved; or, when the start-up
    gets as far (the P4rt backend is selected, or both interface
    addresses were found), the response timeout cannot be parsed, the
    heartbeat timer is enabled and its interval is not empty and cannot
    be parsed, or address allocation is enabled and the pool cannot be
    initialised. *)
Definition NewUPF_fatal (env : Env) (conf : Conf) : bool :=
  let cp := conf_CPIface conf in
  match (if cp_UseFQDN cp && String.eqb (cp_NodeID cp) ""
         then env_FqdnHostname env
         else Success (cp_NodeID cp)) with
  | Failure _ => true
  | Success nodeID =>
      match (if negb (String.eqb nodeID "")
             then env_LookupHost env nodeID
             else Success [nodeID]) with
      | Failure _ => true
      | Success [] => false
      | Success (_ :: _) =>
          if negb (conf_EnableP4rt conf)
             && (failed (env_GetUnicastAddressFromInterface env
                           (IfName (conf_AccessIface conf)))
                 || failed (env_GetUnicastAddressFromInterface env
                              (IfName (conf_CoreIface conf))))
          then false
          else failed (env_ParseDuration env (conf_RespTimeout conf))
               || (conf_EnableHBTimer conf
                   && negb (String.eqb (conf_HeartBeatInterval conf) "")
                   && failed (env_ParseDuration env (conf_HeartBeatInterval conf)))
               || (cp_EnableUeIPAlloc cp
                   && failed (env_NewIPPool env (cp_UEIPPool cp)))
      end
  end.

(** Unfolds the monadic skeleton of [NewUPF] and its external calls. *)
Ltac unfold_upf :=
  unfold NewUPF, FqdnHostname, LookupHost, GetUnicastAddressFromInterface,
    ParseDuration, NewIPPool, SetUpfInfo, Println, log_Fatalln, log_Errorln,
    log_Warnln, log_Infoln, emit, panic, ret, bind.

(** Case analysis on every test and every answer of the environment on
    the path. *)
Ltac walk := repeat (case_match; simpl in *; simplify_eq; try discriminate).

(** A computation that never ends the process. *)
Definition no_exit {B A} (m : M B A) : Prop :=
  forall w, exits (outcome m w) = false.

Create HintDb noexit.

(** Two interfaces with the same backend variant, in the interface and in
    its runtime context. *)
Definition same_variant (p p' : PFCPIface) : Prop :=
  p_fp p' = p_fp p
  /\ option_map upf_datapath (p_upf p') = option_map upf_datapath (p_upf p).

(** The registration request, in words: a POST to the registry whose
    body is the JSON object holding the node's address and whose content
    type is JSON. *)
Definition registration_request (ip : string) : Request :=
  {| req_method := "POST";
     req_url := "http://upf-http:8081/v1/register/pcfp";
     req_body := json_Marshal {| Ip := ip |};
     req_header := [("Content-Type", "application/json")] |}.

Definition local_ip (env : Env) : string :=
  match env_InterfaceAddrs env with
  | Failure _ => ""
  | Success addrs => first_non_loopback_v4 addrs
  end.



(** The events [PushPFCPInfoNew] may add, all its requests being [req]
    and their answers the environment's. *)
Definition push_event (env : Env) (req : Request) (e : Event) : Prop :=
  match e with
  | EvClientDo r o => r = req /\ exists i : nat, o = env_clientDo env i
  | EvLog LvError _ _ | EvSleep _ | EvPrint _ | EvInterfaceAddrs => True
  | _ => False
  end.

(** The shutdown sequence of [Stop]. *)
Definition shutdown_sequence (env : Env) : list Event :=
  ([EvLock; EvHttpShutdown (env_httpShutdown env)]
   ++ match env_httpShutdown env with
      | Some e => [EvLog LvError "Failed to shutdown http: " (Some e)]
      | None => []
      end
   ++ [EvNodeStop; EvNodeDone; EvCancel; EvUnlock])%list.

(** [a] happens before [b] in the trace [t]. *)
Definition before (a b : Event) (t : list Event) : Prop :=
  exists t1 t2 t3 : list Event, t = (t1 ++ a :: t2 ++ b :: t3)%list.

(** The interface as [mustInit] leaves it. *)
Definition initialised (p : PFCPIface) : PFCPIface :=
  set_httpSrv
    (set_collectors (set_node p (Some {| node_upf := p_upf p |})) true)
    (Some {| srv_Addr := p_httpEndpoint p;
             srv_ReadHeaderTimeout := 60 * Second |}).

(** What [Run] does, when the set-up succeeds, before it registers the
    node: the simulation if it is enabled, [mustInit], the HTTP server
    goroutine, the two signal registrations and the signal waiter. *)
Definition Run_prelude (env : Env) : list Event :=
  ((if sim_enable (env_simulate env) then [EvSim] else [])
   ++ [EvLock; EvNewPFCPNode; EvSetupConfigHandler; EvSetupProm None; EvUnlock;
       EvGo GoHttpServer; EvSignalNotify SIGINT; EvSignalNotify SIGTERM;
       EvGo GoSignalWaiter;
       EvPrint [PStr "parham log : calling PushPFCPInfoNew"]])%list.

(** Whether [Run] goes on after the simulation. *)
Definition Run_continues (env : Env) : bool :=
  negb (sim_enable (env_simulate env)) || sim_keepGoing (env_simulate env).

(** Closes a goal whose hypothesis [Hin] places an event in a list of
    events of other kinds. *)
Ltac no_such_event Hin :=
  simpl in Hin;
  repeat (destruct Hin as [Hin | Hin]; [discriminate Hin |]);
  try contradiction.

(** ** Predicates used in the further statements *)

(** An interface address that [GetLocalIP] accepts: an IP network, not
    a loopback, with an IPv4 form. *)
Definition usable_addr (a : Addr) : bool :=
  addr_isIPNet a && negb (addr_isLoopback a) && addr_isV4 a.

Definition is_SetUpfInfo (e : Event) : bool :=
  match e with EvSetUpfInfo _ _ => true | _ => false end.

Definition is_warning (e : Event) : bool :=
  match e with EvLog LvWarn _ _ => true | _ => false end.

Definition is_FqdnHostname (e : Event) : bool :=
  match e with EvFqdnHostname _ => true | _ => false end.

Definition is_LookupHost (e : Event) : bool :=
  match e with EvLookupHost _ _ => true | _ => false end.

Definition is_Go (e : Event) : bool :=
  match e with EvGo _ => true | _ => false end.

Definition is_ClientDo (e : Event) : bool :=
  match e with EvClientDo _ _ => true | _ => false end.


(** The name [NewUPF] resolves: the configured node identity, or the
    host name when the identity is empty and the FQDN is asked for. *)
Definition startup_identity (env : Env) (conf : Conf) : string :=
  let cp := conf_CPIface conf in
  if cp_UseFQDN cp && String.eqb (cp_NodeID cp) ""
  then match env_FqdnHostname env with
       | Success h => h
       | Failure _ => ""
       end
  else cp_NodeID cp.

(** The five lines [NewUPF] prints about the context it returns. *)
Definition upf_info (u : upf) : list Event :=
  [EvPrint [PStr "upf info :"];
   EvPrint [PStr "dnn = "; PStr (upf_Dnn u)];
   EvPrint [PStr "AccessIP = "; PIP (upf_AccessIP u)];
   EvPrint [PStr "CoreIP = "; PIP (upf_CoreIP u)];
   EvPrint [PStr "nodeID = "; PStr (upf_NodeID u)]].

(** An environment whose simulation runs and does not keep going. *)
Definition simulate_only_env : Env :=
  let env := sample_env None in
  {| env_FqdnHostname := env_FqdnHostname env;
     env_LookupHost := env_LookupHost env;
     env_GetUnicastAddressFromInterface := env_GetUnicastAddressFromInterface env;
     env_ParseDuration := env_ParseDuration env;
     env_NewIPPool := env_NewIPPool env;
     env_simulate := {| sim_enable := true; sim_keepGoing := false |};
     env_setupProm := env_setupProm env;
     env_ListenAndServe := env_ListenAndServe env;
     env_InterfaceAddrs := env_InterfaceAddrs env;
     env_NewRequest := env_NewRequest env;
     env_clientDo := env_clientDo env;
     env_httpShutdown := env_httpShutdown env |}.

(** A configuration that asks for the host name, for heartbeats every
    five seconds and for address allocation, on the software pipeline
    or not. *)
Definition fqdn_conf (p4rt : bool) : Conf :=
  {| conf_AccessIface := {| IfName := "access" |};
     conf_CoreIface := {| IfName := "access" |};
     conf_CPIface :=
       {| cp_NodeID := ""; cp_UseFQDN := true; cp_EnableUeIPAlloc := true;
          cp_UEIPPool := "10.250.0.0/16"; cp_Dnn := "internet";
          cp_Peers := ["smf1"; "smf2"]; cp_HTTPPort := "9090" |};
     conf_EnableP4rt := p4rt;
     conf_EnableFlowMeasure := true;
     conf_EnableEndMarker := false;
     conf_ReadTimeout := 15;
     conf_MaxReqRetries := 5;
     conf_RespTimeout := "2s";
     conf_EnableHBTimer := true;
     conf_HeartBeatInterval := "5s" |}.

(** What holds of a runtime context [u] that [NewUPF] returns, of the
    events [t] it added on the way, and of the backend before ([b]) and
    after ([b']). *)
Definition context_facts {B : Type} `{DatapathOps B}
    (env : Env) (conf : Conf) (fp : datapath)
    (b : B) (u : upf) (t : list Event) (b' : B) : Prop :=
  filter is_SetUpfInfo t = [EvSetUpfInfo u conf]
  /\ skipn (length t - 6) t = EvSetUpfInfo u conf :: upf_info u
  /\ b' = dp_SetUpfInfo fp b u conf
  /\ upf_peers u = cp_Peers (conf_CPIface conf)
  /\ upf_Hostname u = cp_NodeID (conf_CPIface conf)
  /\ match (if negb (String.eqb (startup_identity env conf) "")
            then env_LookupHost env (startup_identity env conf)
            else Success [startup_identity env conf]) with
     | Success (h :: _) => upf_NodeID u = h
     | _ => False
     end
  /\ existsb is_LookupHost t
     = negb (String.eqb (startup_identity env conf) "")
  /\ env_ParseDuration env (conf_RespTimeout conf)
     = Success (upf_respTimeout u)
  /\ (if conf_EnableHBTimer conf
      then if negb (String.eqb (conf_HeartBeatInterval conf) "")
           then env_ParseDuration env (conf_HeartBeatInterval conf)
                = Success (upf_hbInterval u)
           else upf_hbInterval u = 0
      else upf_hbInterval u = 0)
  /\ (if cp_EnableUeIPAlloc (conf_CPIface conf)
      then exists pool,
          env_NewIPPool env (cp_UEIPPool (conf_CPIface conf)) = Success pool
          /\ upf_ippool u = Some pool
      else upf_ippool u = None)
  /\ (if negb (conf_EnableP4rt conf)
      then env_GetUnicastAddressFromInterface env
             (IfName (conf_AccessIface conf)) = Success (upf_AccessIP u)
           /\ env_GetUnicastAddressFromInterface env
                (IfName (conf_CoreIface conf)) = Success (upf_CoreIP u)
      else upf_AccessIP u = [] /\ upf_CoreIP u = [])
  /\ upf_readTimeout u
     = wrap_int64 (Second * wrap_int64 (conf_ReadTimeout conf))
  /\ upf_enableHBTimer u = conf_EnableHBTimer conf
  /\ upf_EnableUeIPAlloc u = cp_EnableUeIPAlloc (conf_CPIface conf).

(** Whether an outcome is the return of a runtime context. *)
Definition returns_context (o : Outcome (option upf)) : bool :=
  match o with Ret (Some _) => true | _ => false end.

(** The context and the events of a sample start-up with [fqdn_conf]. *)
Definition context_of (o : Outcome (option upf)) : upf :=
  match o with Ret (Some u) => u | _ => sample_upf end.

Definition fqdn_start (p4rt : bool)
  : World (list SliceInfo) * Outcome (option upf) :=
  run (NewUPF (sample_env None) (fqdn_conf p4rt) (if p4rt then UP4 else bess))
      sample_world.

Definition fqdn_upf (p4rt : bool) : upf := context_of (snd (fqdn_start p4rt)).

Definition fqdn_trace (p4rt : bool) : list Event := w_trace (fst (fqdn_start p4rt)).

(** The events of sample runs of [Run] and of [PushPFCPInfoNew], and the
    interface of a sample construction. *)
Definition sample_run_trace : list Event :=
  w_trace (world_after (Run (sample_env (Some 1%nat)) 3 sample_iface) sample_world).


Definition iface_of (o : Outcome PFCPIface) : PFCPIface :=
  match o with Ret p => p | _ => sample_iface end.

Definition fresh_iface : PFCPIface :=
  iface_of (outcome (NewPFCPIface (sample_env None) (fqdn_conf true)) sample_world).



(** * Properties *)

(** ** Sample runs *)

Example go_copy_peers :
  go_copy (make_strings 2) ["smf1"; "smf2"] = (["smf1"; "smf2"], 2%nat).
Proof. reflexivity. Qed.

Example first_non_loopback_v4_sample :
  local_ip (sample_env None) = "10.0.0.1".
Proof. reflexivity. Qed.

(** The software pipeline is selected and the core interface has no
    address: [NewUPF] logs the error and returns nil. *)
Example NewUPF_sample_nil :
  run (NewUPF (sample_env None) (sample_conf false false "2s" "") bess) sample_world
  = ({| w_trace :=
          [EvGetUnicastAddress "access"
             (Success [Byte.x0a; Byte.x00; Byte.x00; Byte.x01]);
           EvGetUnicastAddress "core" (Failure (GoError "no unicast address"));
           EvLog LvError "" (Some (GoError "no unicast address"))];
        w_backend := [] |}, Ret None).
Proof. reflexivity. Qed.

(** The response timeout does not parse: [NewUPF] ends the process. *)
Example NewUPF_sample_fatal :
  run (NewUPF (sample_env None) (sample_conf true false "oops" "") UP4) sample_world
  = ({| w_trace :=
          [EvParseDuration "oops" (Failure (GoError "time: invalid duration"));
           EvLog LvFatal "Unable to parse resp_timeout" None];
        w_backend := [] |}, Exit 1).
Proof. reflexivity. Qed.

(** The registry answers the second request: [Run] sets up, registers,
    and then serves. *)
Example Run_sample_trace :
  let req := registration_request "10.0.0.1" in
  run (Run (sample_env (Some 1%nat)) 3 sample_iface) sample_world
  = ({| w_trace :=
          [EvLock; EvNewPFCPNode; EvSetupConfigHandler; EvSetupProm None;
           EvUnlock; EvGo GoHttpServer; EvSignalNotify SIGINT;
           EvSignalNotify SIGTERM; EvGo GoSignalWaiter;
           EvPrint [PStr "parham log : calling PushPFCPInfoNew"];
           EvInterfaceAddrs;
           EvPrint [PStr "parham log : local ip = "; PStr "10.0.0.1"];
           EvPrint [PStr "parham log : json encoded pfcpInfo [";
                    PStr (json_Marshal {| Ip := "10.0.0.1" |}); PStr "] "];
           EvClientDo req (Some (GoError "connection refused"));
           EvLog LvError "client: error making http request: "
                 (Some (GoError "connection refused"));
           EvSleep 1000000000;
           EvClientDo req None;
           EvNodeServe];
        w_backend := [] |}, Ret (initialised sample_iface)).
Proof. reflexivity. Qed.

(** The registry never answers: [Run] is still registering when the fuel
    runs out. *)
Example Run_sample_out_of_fuel :
  outcome (Run (sample_env None) 3 sample_iface) sample_world = OutOfFuel.
Proof. reflexivity. Qed.

(** ** addSliceInfo *)

Section SliceFacts.
Context {B : Type} `{DatapathOps B}.

(** C3. For every runtime context [u], every world and every non-nil
    slice info [S], [addSliceInfo(S)] returns; afterwards the stored
    slice info is [S] (the field holds one slice info at most, and all
    other fields are as before), the backend's [AddSliceInfo] was
    called exactly once, with [S], and the value returned is the
    backend's result. *)
Theorem addSliceInfo_replaces_and_programs (u : upf) (S : SliceInfo) (w : World B) :
  exists (u' : upf) (e : option error) (w' : World B),
    run (addSliceInfo u (Some S)) w = (w', Ret (u', e))
    /\ upf_sliceInfo u' = Some S
    /\ u' = set_sliceInfo u (Some S)
    /\ w_trace w' = (w_trace w ++ [EvAddSliceInfo u' S])%list
    /\ (w_backend w', e) = dp_AddSliceInfo (upf_datapath u) (w_backend w) u' S.
Proof.
  unfold run, addSliceInfo, bind, AddSliceInfo. simpl.
  destruct (dp_AddSliceInfo (upf_datapath u) (w_backend w)
              (set_sliceInfo u (Some S)) S) as [b e] eqn:E.
  exists (set_sliceInfo u (Some S)), e. eexists.
  split; [reflexivity |]. repeat split. simpl. now rewrite E.
Qed.

(** C4. For every runtime context and every world, [addSliceInfo(nil)]
    returns an [InvalidArgument] error, adds no event to the trace (so
    it makes no backend call), and leaves the runtime context, the
    stored slice info included, and the backend as they were. *)
Theorem addSliceInfo_nil_rejected (u : upf) (w : World B) :
  exists e : error,
    run (addSliceInfo u None) w = (w, Ret (u, Some e))
    /\ is_InvalidArgument e = true.
Proof. exists (ErrInvalidArgument "sliceInfo"). split; reflexivity. Qed.

(** C9. For every runtime context [u] and non-nil slice info [S]: the
    backend is called with the runtime context already holding [S] as
    its stored slice info, and when the backend's [AddSliceInfo]
    answers with an error, [addSliceInfo] returns that error and the
    stored slice info is [S] all the same. *)
Theorem addSliceInfo_not_atomic (u : upf) (S : SliceInfo) (w : World B)
    (b : B) (err : error) :
  dp_AddSliceInfo (upf_datapath u) (w_backend w) (set_sliceInfo u (Some S)) S
    = (b, Some err) ->
  exists (u' : upf) (w' : World B),
    run (addSliceInfo u (Some S)) w = (w', Ret (u', Some err))
    /\ upf_sliceInfo u' = Some S
    /\ w_trace w' = (w_trace w ++ [EvAddSliceInfo u' S])%list.
Proof.
  intros E. unfold run, addSliceInfo, bind, AddSliceInfo. simpl. rewrite E.
  eexists. eexists. repeat split.
Qed.

End SliceFacts.

Lemma addSliceInfo_not_atomic_witness :
  exists (u' : upf) (w' : World (list SliceInfo)),
    run (addSliceInfo sample_upf (Some (sample_slice 0))) sample_world
      = (w', Ret (u', Some (GoError "no uplink rate")))
    /\ upf_sliceInfo u' = Some (sample_slice 0)
    /\ w_trace w' = (w_trace sample_world ++ [EvAddSliceInfo u' (sample_slice 0)])%list.
Proof.
  apply (addSliceInfo_not_atomic sample_upf (sample_slice 0) sample_world []).
  reflexivity.
Defined.

(** ** NewUPF *)

Section NewUPFFacts.
Context {B : Type} `{DatapathOps B}.

(** Every path through [NewUPF] at once: what it adds to the trace,
    when it ends the process, when it returns nil, and what the
    runtime context it returns holds. *)
Lemma NewUPF_cases (env : Env) (conf : Conf) (fp : datapath) (w : World B) :
  exists (t : list Event) (w' : World B) (o : Outcome (option upf)),
    run (NewUPF env conf fp) w = (w', o)
    /\ w_trace w' = (w_trace w ++ t)%list
    /\ exits o = NewUPF_fatal env conf
    /\ (unicast_failed t = true <-> o = Ret None)
    /\ (o = Ret None <-> NewUPF_returns_nil env conf = true)
    /\ (forall u, o = Ret (Some u) ->
          upf_reportNotifyChan u = Some (make_chan 1024)
          /\ upf_datapath u = fp
          /\ upf_sliceInfo u = None).
Proof.
  unfold run, NewUPF_fatal, NewUPF_returns_nil, node_identity_resolves.
  unfold_upf. simpl.
  walk;
    (eexists; eexists; eexists; split; [reflexivity |];
     split; [simpl; rewrite <- ?app_assoc; simpl; reflexivity |];
     repeat split; simpl; intros; simplify_eq; try reflexivity;
     try (destruct (conf_EnableP4rt conf); simpl in *; congruence)).
Qed.

End NewUPFFacts.

Section ExitFacts.
Context {B : Type}.

Lemma no_exit_ret {A} (a : A) : no_exit (@ret B A a).
Proof. now intros w. Qed.

Lemma no_exit_emit e : no_exit (@emit B e).
Proof. now intros w. Qed.

Lemma no_exit_panic {A} s : no_exit (@panic B A s).
Proof. now intros w. Qed.

Lemma no_exit_out_of_fuel {A} : no_exit (@out_of_fuel B A).
Proof. now intros w. Qed.

Lemma no_exit_bind {A C} (m : M B A) (k : A -> M B C) :
  no_exit m -> (forall a, no_exit (k a)) -> no_exit (bind m k).
Proof.
  intros Hm Hk w. unfold outcome, bind. specialize (Hm w). unfold outcome in Hm.
  destruct (m w) as [w1 [a | c | s |]]; simpl in *; try congruence.
  apply Hk.
Qed.

Lemma no_exit_with_defer {A} (d : M B unit) (m : M B A) :
  no_exit d -> no_exit m -> no_exit (with_defer d m).
Proof.
  intros Hd Hm w. unfold outcome, with_defer.
  specialize (Hm w). unfold outcome in Hm.
  destruct (m w) as [w1 [a | c | s |]]; simpl in *; try congruence.
  specialize (Hd w1). unfold outcome in Hd.
  destruct (d w1) as [w2 [[] | c | s |]]; simpl in *; congruence.
Qed.
End ExitFacts.

#[export] Hint Resolve no_exit_ret no_exit_emit no_exit_panic no_exit_out_of_fuel
  no_exit_bind no_exit_with_defer : noexit.

Section NewUPFClaims.
Context {B : Type} `{DatapathOps B}.

Lemma no_exit_loop env fuel : forall req n, no_exit (PushPFCPInfoNew_loop (B:=B) env fuel req n).
Proof.
  induction fuel as [| fuel IH]; intros req n; simpl; [apply no_exit_out_of_fuel |].
  apply no_exit_bind; [apply no_exit_emit | intros _].
  destruct (env_clientDo env n); [| apply no_exit_ret].
  unfold log_Errorln. auto with noexit.
Qed.


(** C5. For every environment, configuration, backend and world in
    which [NewUPF] returns a runtime context, the usage-report channel
    of that context is a buffered channel, empty, of capacity 1024,
    which is at least one thousand, whatever the configuration says. *)
Theorem NewUPF_reportNotifyChan_capacity
    (env : Env) (conf : Conf) (fp : datapath) (w : World B) (u : upf) :
  outcome (NewUPF env conf fp) w = Ret (Some u) ->
  exists ch : chan_uint64,
    upf_reportNotifyChan u = Some ch
    /\ chan_cap ch = 1024
    /\ 1000 <= chan_cap ch
    /\ chan_buf ch = [].
Proof.
  intros Hret.
  destruct (NewUPF_cases env conf fp w) as (t & w' & o & Hrun & _ & _ & _ & _ & Hu).
  unfold outcome in Hret. unfold run in Hrun. rewrite Hrun in Hret. simpl in Hret.
  destruct (Hu u Hret) as (Hch & _).
  exists (make_chan 1024). repeat split; [exact Hch | simpl; lia].
Qed.


End NewUPFClaims.

Lemma NewUPF_reportNotifyChan_capacity_witness :
  exists u : upf,
    outcome (NewUPF (sample_env None) (sample_conf true false "2s" "") UP4) sample_world
      = Ret (Some u)
    /\ exists ch : chan_uint64,
        upf_reportNotifyChan u = Some ch
        /\ chan_cap ch = 1024
        /\ 1000 <= chan_cap ch
        /\ chan_buf ch = [].
Proof.
  eexists. split; [reflexivity |].
  apply (NewUPF_reportNotifyChan_capacity
           (sample_env None) (sample_conf true false "2s" "") UP4 sample_world).
  reflexivity.
Defined.


Section NilClaims.
Context {B : Type} `{DatapathOps B}.

Lemma unicast_failed_In (t : list Event) ifname e :
  In (EvGetUnicastAddress ifname (Failure e)) t -> unicast_failed t = true.
Proof.
  intros Hin. unfold unicast_failed. apply existsb_exists.
  eexists. split; [exact Hin | reflexivity].
Qed.

(** [NewPFCPIface] passes on what [NewUPF] does. *)
Lemma NewPFCPIface_run (env : Env) (conf : Conf) (w : World B) :
  let fp := if conf_EnableP4rt conf then UP4 else bess in
  let w0 := {| w_trace := w_trace w; w_backend := dp_new fp |} in
  run (NewPFCPIface env conf) w =
  (fst (run (NewUPF env conf fp) w0),
   match snd (run (NewUPF env conf fp) w0) with
   | Ret u =>
       Ret {| p_conf := conf; p_node := None; p_fp := fp; p_upf := u;
              p_httpSrv := None;
              p_httpEndpoint :=
                ":" ++ (if negb (String.eqb (cp_HTTPPort (conf_CPIface conf)) "")
                        then cp_HTTPPort (conf_CPIface conf) else "8080");
              p_collectors := false |}
   | Exit c => Exit c
   | Panic s => Panic s
   | OutOfFuel => OutOfFuel
   end).
Proof.
  unfold run, NewPFCPIface, new_backend, bind, ret. simpl.
  now destruct (NewUPF env conf _ _) as [w1 [u | c | s |]].
Qed.

(** C10. When the software-pipeline backend is selected and [NewUPF]
    makes an interface address lookup that fails, [NewUPF] returns nil:
    it neither returns a runtime context nor ends the process, and its
    one result carries no error.  [NewPFCPIface] then returns an
    interface whose runtime context is nil.  In terms of the
    configuration and the environment, nil is returned exactly under the
    conditions of [NewUPF_returns_nil]. *)
Theorem NewUPF_nil_on_unicast_failure
    (env : Env) (conf : Conf) (fp : datapath) (w : World B)
    (t : list Event) (ifname : string) (e : error) :
  conf_EnableP4rt conf = false ->
  w_trace (world_after (NewUPF env conf fp) w) = (w_trace w ++ t)%list ->
  In (EvGetUnicastAddress ifname (Failure e)) t ->
  outcome (NewUPF env conf fp) w = Ret None
  /\ (forall w2 : World B,
        exists p : PFCPIface,
          outcome (NewPFCPIface env conf) w2 = Ret p
          /\ p_upf p = None
          /\ p_fp p = bess)
  /\ (forall env' conf' fp' (w' : World B),
        outcome (NewUPF env' conf' fp') w' = Ret None
        <-> NewUPF_returns_nil env' conf' = true).
Proof.
  intros Hp4 Htr Hin.
  assert (Hchar : forall env' conf' fp' (w' : World B),
             outcome (NewUPF env' conf' fp') w' = Ret None
             <-> NewUPF_returns_nil env' conf' = true).
  { intros env' conf' fp' w'.
    destruct (NewUPF_cases env' conf' fp' w')
      as (t' & w'' & o' & Hrun' & _ & _ & _ & Hnil' & _).
    unfold outcome. unfold run in Hrun'. now rewrite Hrun'. }
  assert (Hnil : outcome (NewUPF env conf fp) w = Ret None).
  { destruct (NewUPF_cases env conf fp w)
      as (t0 & w' & o & Hrun & Ht0 & _ & Hfail & _).
    unfold world_after in Htr. unfold run in Hrun. rewrite Hrun in Htr. simpl in Htr.
    rewrite Ht0 in Htr. apply app_inv_head in Htr. subst t0.
    unfold outcome. rewrite Hrun. simpl.
    apply Hfail. eapply unicast_failed_In; eassumption. }
  split; [exact Hnil | split; [| exact Hchar]].
  intros w2.
  pose proof (NewPFCPIface_run env conf w2) as Hrun2. simpl in Hrun2.
  rewrite Hp4 in Hrun2.
  assert (Hnil2 : outcome (NewUPF env conf bess)
                    {| w_trace := w_trace w2; w_backend := dp_new bess |}
                  = Ret None).
  { apply Hchar. eapply Hchar. exact Hnil. }
  unfold outcome in Hnil2. unfold run in Hrun2. rewrite Hnil2 in Hrun2.
  eexists. unfold outcome. rewrite Hrun2. simpl. repeat split.
Qed.

End NilClaims.

Lemma NewUPF_nil_on_unicast_failure_witness :
  outcome (NewUPF (sample_env None) (sample_conf false false "2s" "") bess) sample_world
    = Ret None
  /\ forall w2 : World (list SliceInfo),
      exists p : PFCPIface,
        outcome (NewPFCPIface (sample_env None) (sample_conf false false "2s" "")) w2 = Ret p
        /\ p_upf p = None
        /\ p_fp p = bess.
Proof.
  refine ((fun Hall => conj (proj1 Hall) (proj1 (proj2 Hall))) _).
  apply (NewUPF_nil_on_unicast_failure
           (sample_env None) (sample_conf false false "2s" "") bess sample_world
           [EvGetUnicastAddress "access"
              (Success [Byte.x0a; Byte.x00; Byte.x00; Byte.x01]);
            EvGetUnicastAddress "core" (Failure (GoError "no unicast address"));
            EvLog LvError "" (Some (GoError "no unicast address"))]
           "core" (GoError "no unicast address")).
  - reflexivity.
  - reflexivity.
  - simpl. right. left. reflexivity.
Defined.

(** ** Traces *)

Lemma notified_app (t1 t2 : list Event) :
  notified (t1 ++ t2) = (notified t1 ++ notified t2)%list.
Proof.
  induction t1 as [| e t1 IH]; [reflexivity |].
  destruct e; simpl; now rewrite ?IH.
Qed.

Lemma push_events_quiet (env : Env) (req : Request) (t : list Event) :
  Forall (push_event env req) t ->
  existsb is_NodeServe t = false
  /\ notified t = []
  /\ (forall g, ~ In (EvGo g) t)
  /\ (post_succeeded t = true -> exists i : nat, env_clientDo env i = None).
Proof.
  induction 1 as [| e t He _ (IH1 & IH2 & IH3 & IH4)].
  { repeat apply conj; try reflexivity; [intros g [] | discriminate]. }
  assert (Hgo : forall g, e <> EvGo g -> ~ In (EvGo g) (e :: t)).
  { intros g Hne [Hg | Hg]; [now apply Hne | now apply (IH3 g)]. }
  destruct e as [[] ? ? | | | | | | | | | | | | | | | | | | | | | | | | | req0 [e0 |] |];
    simpl in He; try contradiction;
    (repeat apply conj; simpl; try assumption;
     try (intros g; apply Hgo; discriminate)).
  intros _. destruct He as (_ & i & Hi). now exists i.
Qed.

Lemma post_succeeded_app t1 t2 :
  post_succeeded (t1 ++ t2) = post_succeeded t1 || post_succeeded t2.
Proof. apply existsb_app. Qed.

(** ** PushPFCPInfoNew *)

Section PushFacts.
Context {B : Type} `{DatapathOps B}.
Variable env : Env.




(** Every run of the loop. *)
Lemma loop_cases (req : Request) : forall (fuel n : nat) (w : World B),
  exists (t : list Event) (w' : World B) (o : Outcome unit),
    PushPFCPInfoNew_loop env fuel req n w = (w', o)
    /\ w_trace w' = (w_trace w ++ t)%list
    /\ Forall (push_event env req) t
    /\ (o = Ret tt -> post_succeeded t = true)
    /\ (o = Ret tt \/ o = OutOfFuel).
Proof.
  induction fuel as [| fuel IH]; intros n w; simpl.
  - exists [], w, OutOfFuel. rewrite app_nil_r.
    repeat split; [constructor | discriminate | now right].
  - unfold bind, emit, log_Errorln, emit, ret. simpl.
    destruct (env_clientDo env n) as [e |] eqn:E.
    + match goal with
      | |- context [PushPFCPInfoNew_loop env fuel req (S n) ?W] =>
          destruct (IH (S n) W) as (t & w' & o & Hrun & Ht & Hq & Hs & Ho)
      end.
      rewrite Hrun.
      exists ([EvClientDo req (Some e);
               EvLog LvError "client: error making http request: " (Some e);
               EvSleep (1 * Second)] ++ t)%list, w', o.
      split; [now destruct o as [[] | | |] |].
      split; [rewrite Ht; simpl; now rewrite <- !app_assoc |].
      split; [repeat constructor; [now exists n | exact Hq] |].
      split; [intros Ho'; simpl; now apply Hs | exact Ho].
    + eexists [EvClientDo req None], _, (Ret tt).
      repeat split; [repeat constructor; now exists n | now left].
Qed.

(** Every run of [PushPFCPInfoNew]. *)
Lemma PushPFCPInfoNew_cases (fuel : nat) (w : World B) :
  exists (t : list Event) (w' : World B) (o : Outcome unit),
    run (PushPFCPInfoNew env fuel) w = (w', o)
    /\ w_trace w' = (w_trace w ++ t)%list
    /\ Forall (push_event env (registration_request (local_ip env))) t
    /\ (o = Ret tt -> post_succeeded t = true).
Proof.
  unfold run, PushPFCPInfoNew, GetLocalIP, Println, log_Errorln, bind, emit,
    panic, ret.
  simpl.
  assert (Hip : (match env_InterfaceAddrs env with
                 | Failure _ => ""
                 | Success addrs => first_non_loopback_v4 addrs
                 end) = local_ip env) by reflexivity.
  destruct (env_InterfaceAddrs env) as [addrs | e0]; simpl;
    (destruct (env_NewRequest env) as [e1 |]; simpl;
     [ eexists; eexists; eexists; split; [reflexivity |];
       split; [simpl; rewrite <- ?app_assoc; simpl; reflexivity |];
       split; [repeat constructor | discriminate]
     | ]).
  all: match goal with
       | |- context [PushPFCPInfoNew_loop _ ?F ?R _ ?W] =>
           destruct (loop_cases R F 0%nat W)
             as (t & w' & o & Hrun & Ht & Hq & Hs & Ho);
           rewrite Hrun
       end.
  all: eexists (_ :: _ :: _ :: t), w', o;
    (split; [reflexivity |]);
    (split; [rewrite Ht; simpl; rewrite <- ?app_assoc; simpl; reflexivity |]);
    (split; [repeat constructor; rewrite <- Hip; exact Hq |]);
    intros Ho'; simpl; now apply Hs.
Qed.

End PushFacts.

(** ** mustInit, Stop and Run *)

Section IfaceFacts.
Context {B : Type} `{DatapathOps B}.
Variable env : Env.

Lemma mustInit_returns (p p' : PFCPIface) (w : World B) :
  outcome (mustInit env p) w = Ret p' ->
  same_variant p p'
  /\ p_httpSrv p' <> None
  /\ p_node p' <> None
  /\ env_setupProm env = None.
Proof.
  unfold outcome, mustInit, with_defer, bind, emit, log_Fatalln, ret. simpl.
  destruct (env_setupProm env); simpl; intros Hret; simplify_eq.
  now repeat split.
Qed.

(** [Stop] on an interface that [mustInit] has set up. *)
Lemma Stop_run (p : PFCPIface) (w : World B) :
  p_httpSrv p <> None ->
  p_node p <> None ->
  run (Stop env p) w =
  ({| w_trace := (w_trace w ++ shutdown_sequence env)%list;
      w_backend := w_backend w |}, Ret p).
Proof.
  intros Hsrv Hnode.
  unfold run, Stop, shutdown_sequence, with_defer, bind, log_Errorln, emit, panic, ret.
  destruct (p_httpSrv p); [| contradiction].
  destruct (p_node p); [| contradiction].
  destruct (env_httpShutdown env); simpl; now rewrite <- !app_assoc.
Qed.


Lemma signalWaiter_run (p : PFCPIface) (s : Signal) (w : World B) :
  signalWaiter_goroutine env p s w =
  Stop env p
    {| w_trace := (w_trace w ++ [EvLog LvInfo "System call received" None])%list;
       w_backend := w_backend w |}.
Proof. reflexivity. Qed.

(** [Run] when it stops after the simulation. *)
Lemma Run_simulation_only (fuel : nat) (p : PFCPIface) (w : World B) :
  Run_continues env = false ->
  run (Run env fuel p) w =
  ({| w_trace := (w_trace w ++ [EvSim])%list; w_backend := w_backend w |}, Ret p).
Proof.
  unfold Run_continues, run, Run, bind, emit, ret.
  destruct (sim_enable (env_simulate env)), (sim_keepGoing (env_simulate env));
    simpl; intros Hc; try discriminate. reflexivity.
Qed.

(** [Run] when [setupProm] fails. *)
Lemma Run_setup_fails (fuel : nat) (p : PFCPIface) (w : World B) (e : error) :
  Run_continues env = true ->
  env_setupProm env = Some e ->
  run (Run env fuel p) w =
  ({| w_trace := (w_trace w
                  ++ (if sim_enable (env_simulate env) then [EvSim] else [])
                  ++ [EvLock; EvNewPFCPNode; EvSetupConfigHandler;
                      EvSetupProm (Some e);
                      EvLog LvFatal "setupProm failed" (Some e)])%list;
      w_backend := w_backend w |}, Exit 1).
Proof.
  unfold Run_continues, run, Run, mustInit, with_defer, bind, emit, log_Fatalln, ret.
  intros Hc Hprom. rewrite Hprom.
  destruct (sim_enable (env_simulate env)), (sim_keepGoing (env_simulate env));
    simpl in *; try discriminate; now rewrite <- ?app_assoc.
Qed.

(** [Run] when the set-up succeeds: the registration, then serving. *)
Lemma Run_registers_then_serves (fuel : nat) (p : PFCPIface) (w : World B) :
  Run_continues env = true ->
  env_setupProm env = None ->
  run (Run env fuel p) w =
  match run (PushPFCPInfoNew env fuel)
            {| w_trace := (w_trace w ++ Run_prelude env)%list;
               w_backend := w_backend w |} with
  | (w2, Ret _) =>
      ({| w_trace := (w_trace w2 ++ [EvNodeServe])%list;
          w_backend := w_backend w2 |}, Ret (initialised p))
  | (w2, Exit c) => (w2, Exit c)
  | (w2, Panic s) => (w2, Panic s)
  | (w2, OutOfFuel) => (w2, OutOfFuel)
  end.
Proof.
  unfold Run_continues, Run_prelude, run, Run, mustInit, with_defer, Println,
    bind, emit, log_Fatalln, ret.
  intros Hc Hprom. rewrite Hprom.
  destruct (sim_enable (env_simulate env)), (sim_keepGoing (env_simulate env));
    simpl in *; try discriminate; rewrite <- ?app_assoc; simpl;
    reflexivity.
Qed.

Lemma Run_prelude_facts :
  existsb is_NodeServe (Run_prelude env) = false
  /\ post_succeeded (Run_prelude env) = false
  /\ notified (Run_prelude env) = [SIGINT; SIGTERM]
  /\ (forall r e, ~ In (EvClientDo r e) (Run_prelude env)).
Proof.
  unfold Run_prelude.
  destruct (sim_enable (env_simulate env)); repeat split;
    intros r e Hin; no_such_event Hin.
Qed.

(** Every run of [Run]: node serving starts only after a registration
    request has succeeded; the signal waiter is started only after both
    signals have been registered; the backend variant is kept; and all
    requests are the registration request. *)
Lemma Run_cases (fuel : nat) (p : PFCPIface) (w : World B) :
  exists (t : list Event) (w' : World B) (o : Outcome PFCPIface),
    run (Run env fuel p) w = (w', o)
    /\ w_trace w' = (w_trace w ++ t)%list
    /\ (existsb is_NodeServe t = true -> post_succeeded t = true)
    /\ (post_succeeded t = true -> exists i : nat, env_clientDo env i = None)
    /\ (In (EvGo GoSignalWaiter) t -> notified t = [SIGINT; SIGTERM])
    /\ (forall p1, o = Ret p1 -> same_variant p p1)
    /\ (forall r e, In (EvClientDo r e) t ->
                    r = registration_request (local_ip env)).
Proof.
  destruct (Run_continues env) eqn:Hc.
  2: { rewrite (Run_simulation_only fuel p w Hc).
       exists [EvSim]. eexists. eexists. split; [reflexivity |].
       split; [reflexivity |]. repeat apply conj.
       - simpl. discriminate.
       - simpl. discriminate.
       - intros Hin. no_such_event Hin.
       - intros p1 Hp1. simplify_eq. now split.
       - intros r e Hin. no_such_event Hin. }
  destruct (env_setupProm env) as [e |] eqn:Hprom.
  { rewrite (Run_setup_fails fuel p w e Hc Hprom).
    eexists. eexists. eexists. split; [reflexivity |].
    split; [reflexivity |].
    destruct (sim_enable (env_simulate env)); repeat apply conj;
      try (simpl; discriminate);
      try (intros Hin; now no_such_event Hin);
      try (intros r e0 Hin; now no_such_event Hin). }
  rewrite (Run_registers_then_serves fuel p w Hc Hprom).
  destruct (PushPFCPInfoNew_cases env fuel
              {| w_trace := (w_trace w ++ Run_prelude env)%list;
                 w_backend := w_backend w |})
    as (t & w2 & o & Hrun & Ht & Hq & Hs).
  rewrite Hrun. simpl in Ht.
  destruct (push_events_quiet _ _ _ Hq) as (Hq1 & Hq2 & Hq3 & Hq4).
  destruct Run_prelude_facts as (Hp1 & Hp2 & Hp3 & Hp4).
  assert (Hreq : forall r e, In (EvClientDo r e) t ->
                        r = registration_request (local_ip env)).
  { intros r e Hin. apply (proj1 (List.Forall_forall _ _) Hq) in Hin.
    now destruct Hin. }
  destruct o as [[] | c | s |].
  - exists (Run_prelude env ++ t ++ [EvNodeServe])%list. eexists. eexists.
    split; [reflexivity |].
    split; [simpl; rewrite Ht; now rewrite <- !app_assoc |].
    repeat apply conj.
    + intros _. rewrite !post_succeeded_app, (Hs eq_refl).
      now rewrite orb_true_r.
    + rewrite !post_succeeded_app, Hp2. simpl. rewrite orb_false_r. exact Hq4.
    + intros _. rewrite !notified_app, Hp3, Hq2. reflexivity.
    + intros p1 Hp. simplify_eq. now split.
    + intros r e Hin.
      apply in_app_or in Hin. destruct Hin as [Hin | Hin];
        [now apply Hp4 in Hin |].
      apply in_app_or in Hin. destruct Hin as [Hin | Hin];
        [now apply Hreq in Hin | no_such_event Hin].
  - exists (Run_prelude env ++ t)%list. eexists. eexists.
    split; [reflexivity |].
    split; [rewrite Ht; now rewrite <- !app_assoc |].
    repeat apply conj.
    + rewrite existsb_app, Hp1, Hq1. discriminate.
    + rewrite !post_succeeded_app, Hp2. simpl. exact Hq4.
    + intros _. rewrite !notified_app, Hp3, Hq2. reflexivity.
    + discriminate.
    + intros r e Hin.
      apply in_app_or in Hin. destruct Hin as [Hin | Hin];
        [now apply Hp4 in Hin | now apply Hreq in Hin].
  - exists (Run_prelude env ++ t)%list. eexists. eexists.
    split; [reflexivity |].
    split; [rewrite Ht; now rewrite <- !app_assoc |].
    repeat apply conj.
    + rewrite existsb_app, Hp1, Hq1. discriminate.
    + rewrite !post_succeeded_app, Hp2. simpl. exact Hq4.
    + intros _. rewrite !notified_app, Hp3, Hq2. reflexivity.
    + discriminate.
    + intros r e Hin.
      apply in_app_or in Hin. destruct Hin as [Hin | Hin];
        [now apply Hp4 in Hin | now apply Hreq in Hin].
  - exists (Run_prelude env ++ t)%list. eexists. eexists.
    split; [reflexivity |].
    split; [rewrite Ht; now rewrite <- !app_assoc |].
    repeat apply conj.
    + rewrite existsb_app, Hp1, Hq1. discriminate.
    + rewrite !post_succeeded_app, Hp2. simpl. exact Hq4.
    + intros _. rewrite !notified_app, Hp3, Hq2. reflexivity.
    + discriminate.
    + intros r e Hin.
      apply in_app_or in Hin. destruct Hin as [Hin | Hin];
        [now apply Hp4 in Hin | now apply Hreq in Hin].
Qed.

End IfaceFacts.

(** ** The backend variant *)

Section VariantClaims.
Context {B : Type} `{DatapathOps B}.


End VariantClaims.


(** ** Registration with the registry *)

Section RegistrationClaims.
Context {B : Type} `{DatapathOps B}.


End RegistrationClaims.



(** ** Shutdown *)

Section ShutdownClaims.
Context {B : Type} `{DatapathOps B}.

(** C7. [Run] starts the signal waiter only after registering SIGINT
    and SIGTERM, so either signal is delivered to it; on receipt the
    waiter calls [Stop]; and [Stop], on the interface that [mustInit]
    has set up, whether or not the HTTP shutdown reports an error,
    takes the lock, shuts the HTTP server down, then stops the node,
    then waits for the node to be done, and only then cancels the
    shutdown context, releases the lock and returns. *)
Theorem signal_triggers_ordered_shutdown
    (env : Env) (s : Signal) (p : PFCPIface) (w : World B) :
  s = SIGINT \/ s = SIGTERM ->
  p_httpSrv p <> None ->
  p_node p <> None ->
  (forall fuel p0 (w0 : World B) t,
      w_trace (world_after (Run env fuel p0) w0) = (w_trace w0 ++ t)%list ->
      In (EvGo GoSignalWaiter) t -> delivered t s = true)
  /\ (forall p0 (w0 : World B) p1,
        outcome (mustInit env p0) w0 = Ret p1 ->
        p_httpSrv p1 <> None /\ p_node p1 <> None)
  /\ run (signalWaiter_goroutine env p s) w =
     ({| w_trace := (w_trace w ++ EvLog LvInfo "System call received" None
                                  :: shutdown_sequence env)%list;
         w_backend := w_backend w |}, Ret p)
  /\ run (Stop env p) w =
     ({| w_trace := (w_trace w ++ shutdown_sequence env)%list;
         w_backend := w_backend w |}, Ret p)
  /\ before (EvHttpShutdown (env_httpShutdown env)) EvNodeStop (shutdown_sequence env)
  /\ before EvNodeStop EvNodeDone (shutdown_sequence env)
  /\ before EvNodeDone EvUnlock (shutdown_sequence env).
Proof.
  intros Hs Hsrv Hnode. repeat apply conj.
  - intros fuel p0 w0 t Ht Hgo.
    destruct (Run_cases env fuel p0 w0)
      as (t1 & w1 & o1 & Hr1 & Ht1 & _ & _ & Hsig & _).
    unfold world_after in Ht. unfold run in Hr1. rewrite Hr1 in Ht. simpl in Ht.
    rewrite Ht1 in Ht. apply app_inv_head in Ht. subst t1.
    unfold delivered. rewrite (Hsig Hgo).
    now destruct Hs as [-> | ->].
  - intros p0 w0 p1 Hp1. now apply mustInit_returns in Hp1.
  - unfold run. rewrite signalWaiter_run.
    pose proof (Stop_run env p
                  {| w_trace := (w_trace w ++ [EvLog LvInfo "System call received" None])%list;
                     w_backend := w_backend w |} Hsrv Hnode) as Hrun.
    unfold run in Hrun. rewrite Hrun. simpl. now rewrite <- app_assoc.
  - now apply Stop_run.
  - unfold before, shutdown_sequence.
    destruct (env_httpShutdown env) as [e |].
    + now exists [EvLock], [EvLog LvError "Failed to shutdown http: " (Some e)],
        [EvNodeDone; EvCancel; EvUnlock].
    + now exists [EvLock], [], [EvNodeDone; EvCancel; EvUnlock].
  - unfold before, shutdown_sequence.
    destruct (env_httpShutdown env) as [e |].
    + now exists [EvLock; EvHttpShutdown (Some e);
                  EvLog LvError "Failed to shutdown http: " (Some e)],
        [], [EvCancel; EvUnlock].
    + now exists [EvLock; EvHttpShutdown None], [], [EvCancel; EvUnlock].
  - unfold before, shutdown_sequence.
    destruct (env_httpShutdown env) as [e |].
    + now exists [EvLock; EvHttpShutdown (Some e);
                  EvLog LvError "Failed to shutdown http: " (Some e); EvNodeStop],
        [EvCancel], [].
    + now exists [EvLock; EvHttpShutdown None; EvNodeStop], [EvCancel], [].
Qed.

End ShutdownClaims.

Lemma signal_triggers_ordered_shutdown_witness :
  run (Stop (sample_env None) sample_iface) sample_world =
  ({| w_trace := [EvLock; EvHttpShutdown None; EvNodeStop; EvNodeDone;
                  EvCancel; EvUnlock];
      w_backend := [] |}, Ret sample_iface).
Proof.
  destruct (signal_triggers_ordered_shutdown
              (sample_env None) SIGTERM sample_iface sample_world)
    as (_ & _ & _ & Hstop & _).
  - now right.
  - discriminate.
  - discriminate.
  - exact Hstop.
Defined.

(** ** The session store *)

Section StoreClaims.
Variable Bk : Type.
Variable ProgramSession : Bk -> PFCPSession -> Bk * option error.

(** C1. When the backend fails to program the rules of a session,
    [PutSession] with [pushPDR] set returns an error that is the
    backend failure, wrapping the backend's own error, and leaves the
    whole store as it was; so every [GetSession] answers as before the
    call, and for an F-SEID that was not in the store it answers "not
    found". *)
Theorem PutSession_atomic_on_backend_failure
    (st : gmap N PFCPSession) (bk bk' : Bk) (session : PFCPSession)
    (pConn : option PFCPConn) (msgType : Z) (cause : error) :
  ProgramSession bk session = (bk', Some cause) ->
  exists (st' : gmap N PFCPSession) (err : error),
    PutSession Bk ProgramSession st bk session pConn true msgType
      = (st', bk', Some err)
    /\ st' = st
    /\ err = BackendFailure cause
    /\ is_BackendFailure err = true
    /\ (forall fseid, GetSession st' fseid = GetSession st fseid)
    /\ (st !! localSEID session = None ->
        snd (GetSession st' (localSEID session)) = false).
Proof.
  intros Hfail. exists st, (BackendFailure cause).
  unfold PutSession. rewrite Hfail.
  repeat apply conj; try reflexivity.
  intros Hnew. unfold GetSession. now rewrite Hnew.
Qed.

End StoreClaims.

Lemma PutSession_atomic_on_backend_failure_witness :
  exists (st' : gmap N PFCPSession) (err : error),
    PutSession (list N) sample_ProgramSession ∅ [] (sample_session 42 []) None true 50
      = (st', [], Some err)
    /\ st' = ∅
    /\ err = BackendFailure (GoError "no rules")
    /\ snd (GetSession st' 42%N) = false.
Proof.
  destruct (PutSession_atomic_on_backend_failure (list N) sample_ProgramSession
              ∅ [] [] (sample_session 42 []) None 50 (GoError "no rules") eq_refl)
    as (st' & err & Hput & Hst & Herr & _ & _ & Hget).
  exists st', err. repeat apply conj; try assumption.
  apply Hget. apply lookup_empty.
Defined.

(** * Further properties *)

(** ** GetLocalIP *)

Lemma first_non_loopback_v4_spec (addrs : list Addr) :
  (exists pre a post,
      addrs = (pre ++ a :: post)%list
      /\ forallb (fun x => negb (usable_addr x)) pre = true
      /\ usable_addr a = true
      /\ first_non_loopback_v4 addrs = addr_String a)
  \/ (forallb (fun x => negb (usable_addr x)) addrs = true
      /\ first_non_loopback_v4 addrs = "").
Proof.
  induction addrs as [| a rest IH]; [now right |].
  destruct (usable_addr a) eqn:Ha.
  - left. exists [], a, rest. repeat split; [exact Ha |].
    unfold usable_addr in Ha. simpl.
    destruct (addr_isIPNet a), (addr_isLoopback a), (addr_isV4 a);
      simpl in *; congruence.
  - assert (Hstep : first_non_loopback_v4 (a :: rest) = first_non_loopback_v4 rest).
    { unfold usable_addr in Ha. simpl.
      destruct (addr_isIPNet a), (addr_isLoopback a), (addr_isV4 a);
        simpl in *; congruence. }
    rewrite Hstep.
    destruct IH as [(pre & b & post & Heq & Hpre & Hb & Hres) | (Hall & Hres)].
    + left. exists (a :: pre), b, post. subst rest.
      repeat split; [simpl; now rewrite Ha | exact Hb | exact Hres].
    + right. split; [simpl; now rewrite Ha | exact Hres].
Qed.

Section LocalIPFacts.
Context {B : Type} `{DatapathOps B}.

(** X1. [GetLocalIP] asks for the interface addresses once and always
    returns.  It answers the printed form of the first address, in the
    order given, that is an IP network, is no loopback and has an IPv4
    form; and the empty string when the addresses cannot be listed or
    none of them is such an address. *)
Theorem GetLocalIP_first_usable (env : Env) (w : World B) :
  exists ip : string,
    run (GetLocalIP env) w =
    ({| w_trace := (w_trace w ++ [EvInterfaceAddrs])%list;
        w_backend := w_backend w |}, Ret ip)
    /\ match env_InterfaceAddrs env with
       | Failure _ => ip = ""
       | Success addrs =>
           (exists pre a post,
               addrs = (pre ++ a :: post)%list
               /\ forallb (fun x => negb (usable_addr x)) pre = true
               /\ usable_addr a = true
               /\ ip = addr_String a)
           \/ (forallb (fun x => negb (usable_addr x)) addrs = true /\ ip = "")
       end.
Proof.
  unfold run, GetLocalIP, bind, emit, ret. simpl.
  destruct (env_InterfaceAddrs env) as [addrs | e].
  - exists (first_non_loopback_v4 addrs). split; [reflexivity |].
    apply first_non_loopback_v4_spec.
  - now exists "".
Qed.

End LocalIPFacts.

(** ** addSliceInfo, repeated *)

Section SliceSequence.
Context {B : Type} `{DatapathOps B}.

(** X2. Slice infos replace one another: after [addSliceInfo(S1)], then
    [addSliceInfo(S2)], then [addSliceInfo(nil)], whatever the backend
    answered to the first two, the stored slice info is [S2], the
    runtime context differs from the first one in that field only, the
    backend was called twice, with [S1] and then with [S2], and the nil
    call changed nothing. *)
Theorem addSliceInfo_last_wins
    (u u1 u2 u3 : upf) (S1 S2 : SliceInfo) (w w1 w2 w3 : World B)
    (e1 e2 e3 : option error) :
  run (addSliceInfo u (Some S1)) w = (w1, Ret (u1, e1)) ->
  run (addSliceInfo u1 (Some S2)) w1 = (w2, Ret (u2, e2)) ->
  run (addSliceInfo u2 None) w2 = (w3, Ret (u3, e3)) ->
  upf_sliceInfo u3 = Some S2
  /\ u3 = set_sliceInfo u (Some S2)
  /\ w_trace w3 = (w_trace w ++ [EvAddSliceInfo u1 S1; EvAddSliceInfo u2 S2])%list
  /\ w3 = w2
  /\ e3 = Some (ErrInvalidArgument "sliceInfo").
Proof.
  unfold run, addSliceInfo, AddSliceInfo, bind, ret. simpl.
  destruct (dp_AddSliceInfo (upf_datapath u) (w_backend w) _ S1) as [b1 r1].
  simpl. intros E1. simplify_eq. simpl.
  destruct (dp_AddSliceInfo (upf_datapath u) b1 _ S2) as [b2 r2].
  simpl. intros E2. simplify_eq. simpl. intros E3. simplify_eq.
  repeat apply conj; try reflexivity. simpl. now rewrite <- app_assoc.
Qed.

End SliceSequence.

Lemma addSliceInfo_last_wins_witness :
  exists u3 : upf,
    upf_sliceInfo u3 = Some (sample_slice 9)
    /\ u3 = set_sliceInfo sample_upf (Some (sample_slice 9)).
Proof.
  eexists.
  refine ((fun Hall => conj (proj1 Hall) (proj1 (proj2 Hall))) _).
  eapply (addSliceInfo_last_wins sample_upf _ _ _ (sample_slice 0) (sample_slice 9)
            sample_world); reflexivity.
Defined.

(** ** The runtime context built by NewUPF *)

Lemma go_copy_make (l : list string) :
  go_copy (make_strings (length l)) l = (l, length l).
Proof.
  unfold go_copy, make_strings. rewrite repeat_length, Nat.min_id.
  rewrite firstn_all.
  rewrite skipn_all2 by (rewrite repeat_length; lia).
  now rewrite app_nil_r.
Qed.

Section ContextFacts.
Context {B : Type} `{DatapathOps B}.

(** Every path through [NewUPF] again, for what the context holds and
    for the calls made on the way. *)
Lemma NewUPF_context (env : Env) (conf : Conf) (fp : datapath) (w : World B) :
  exists (t : list Event) (w' : World B) (o : Outcome (option upf)),
    run (NewUPF env conf fp) w = (w', o)
    /\ w_trace w' = (w_trace w ++ t)%list
    /\ existsb is_warning t = false
    /\ existsb is_FqdnHostname t
       = cp_UseFQDN (conf_CPIface conf)
         && String.eqb (cp_NodeID (conf_CPIface conf)) ""
    /\ match o with
       | Ret (Some u) =>
           context_facts env conf fp (w_backend w) u t (w_backend w')
       | _ =>
           filter is_SetUpfInfo t = [] /\ w_backend w' = w_backend w
       end.
Proof.
  unfold run, context_facts, startup_identity, upf_info. unfold_upf.
  rewrite go_copy_make.
  destruct (cp_Peers (conf_CPIface conf)) as [| peer peers] eqn:Hpeers; simpl.
  all: walk;
    (eexists; eexists; eexists; split; [reflexivity |];
     split; [simpl; rewrite <- ?app_assoc; simpl; reflexivity |];
     repeat apply conj; simpl; try reflexivity; try congruence;
     try (eexists; split; reflexivity)).
Qed.

(** The same, at a run that returns a context. *)
Lemma NewUPF_returns_context
    (env : Env) (conf : Conf) (fp : datapath) (w : World B)
    (u : upf) (t : list Event) :
  outcome (NewUPF env conf fp) w = Ret (Some u) ->
  w_trace (world_after (NewUPF env conf fp) w) = (w_trace w ++ t)%list ->
  existsb is_warning t = false
  /\ existsb is_FqdnHostname t
     = cp_UseFQDN (conf_CPIface conf)
       && String.eqb (cp_NodeID (conf_CPIface conf)) ""
  /\ context_facts env conf fp (w_backend w) u t
       (w_backend (world_after (NewUPF env conf fp) w)).
Proof.
  intros Ho Ht.
  destruct (NewUPF_context env conf fp w)
    as (t0 & w' & o & Hrun & Ht0 & Hwarn & Hfqdn & Hfacts).
  unfold outcome in Ho. unfold world_after in Ht |- *. unfold run in Hrun.
  rewrite Hrun in Ho, Ht |- *. simpl in Ho, Ht |- *. subst o.
  rewrite Ht0 in Ht. apply app_inv_head in Ht. subst t0.
  split; [exact Hwarn | split; [exact Hfqdn | exact Hfacts]].
Qed.

End ContextFacts.

Lemma wrap_int64_small (z : Z) :
  - 2^63 <= z < 2^63 -> wrap_int64 z = z.
Proof. intros Hz. unfold wrap_int64. rewrite Z.mod_small; lia. Qed.

Section ContextClaims.
Context {B : Type} `{DatapathOps B}.

Lemma NewUPF_extends (env : Env) (conf : Conf) (fp : datapath) (w : World B) :
  exists t : list Event,
    w_trace (world_after (NewUPF env conf fp) w) = (w_trace w ++ t)%list.
Proof.
  destruct (NewUPF_cases env conf fp w) as (t & w' & o & Hrun & Ht & _).
  exists t. unfold world_after. unfold run in Hrun. now rewrite Hrun.
Qed.

Lemma NewUPF_context_of
    (env : Env) (conf : Conf) (fp : datapath) (w : World B) (u : upf) :
  outcome (NewUPF env conf fp) w = Ret (Some u) ->
  exists t : list Event,
    context_facts env conf fp (w_backend w) u t
      (w_backend (world_after (NewUPF env conf fp) w)).
Proof.
  intros Ho. destruct (NewUPF_extends env conf fp w) as (t & Ht).
  exists t. now apply (NewUPF_returns_context env conf fp w u t Ho Ht).
Qed.

(** X3. The context [NewUPF] returns lists exactly the configured peers,
    in their order, and [NewUPF] never logs the warning that the peers
    could not be parsed. *)
Theorem NewUPF_peers_copied
    (env : Env) (conf : Conf) (fp : datapath) (w : World B)
    (u : upf) (t : list Event) :
  outcome (NewUPF env conf fp) w = Ret (Some u) ->
  w_trace (world_after (NewUPF env conf fp) w) = (w_trace w ++ t)%list ->
  upf_peers u = cp_Peers (conf_CPIface conf)
  /\ existsb is_warning t = false.
Proof.
  intros Ho Ht.
  destruct (NewUPF_returns_context env conf fp w u t Ho Ht)
    as (Hwarn & _ & _ & _ & _ & Hpeers & _).
  now split.
Qed.

(** X4. In the context [NewUPF] returns, the response timeout is the
    parsed [RespTimeout].  The heartbeat interval is the parsed
    [HeartBeatInterval] when the heartbeat timer is enabled and the
    interval is not empty; it is zero when the timer is disabled, and
    also when the timer is enabled with an empty interval. *)
Theorem NewUPF_timers
    (env : Env) (conf : Conf) (fp : datapath) (w : World B) (u : upf) :
  outcome (NewUPF env conf fp) w = Ret (Some u) ->
  env_ParseDuration env (conf_RespTimeout conf) = Success (upf_respTimeout u)
  /\ upf_enableHBTimer u = conf_EnableHBTimer conf
  /\ (conf_EnableHBTimer conf = true ->
      conf_HeartBeatInterval conf <> "" ->
      env_ParseDuration env (conf_HeartBeatInterval conf)
      = Success (upf_hbInterval u))
  /\ (conf_EnableHBTimer conf = true ->
      conf_HeartBeatInterval conf = "" ->
      upf_hbInterval u = 0)
  /\ (conf_EnableHBTimer conf = false -> upf_hbInterval u = 0).
Proof.
  intros Ho. destruct (NewUPF_context_of env conf fp w u Ho) as (t & Hf).
  destruct Hf as (_ & _ & _ & _ & _ & _ & _ & Hresp & Hhb & _ & _ & _ & Hen & _).
  repeat apply conj; try assumption.
  - intros Hon Hne. rewrite Hon in Hhb.
    apply String.eqb_neq in Hne. now rewrite Hne in Hhb.
  - intros Hon Hempty. rewrite Hon, Hempty in Hhb. exact Hhb.
  - intros Hoff. now rewrite Hoff in Hhb.
Qed.

(** X5. The context [NewUPF] returns has an address pool exactly when
    address allocation is enabled, and the pool is then the one built
    from the configured CIDR; with allocation disabled the pool is nil
    whatever the CIDR. *)
Theorem NewUPF_ippool
    (env : Env) (conf : Conf) (fp : datapath) (w : World B) (u : upf) :
  outcome (NewUPF env conf fp) w = Ret (Some u) ->
  upf_EnableUeIPAlloc u = cp_EnableUeIPAlloc (conf_CPIface conf)
  /\ (cp_EnableUeIPAlloc (conf_CPIface conf) = true ->
      exists pool : IPPool,
        env_NewIPPool env (cp_UEIPPool (conf_CPIface conf)) = Success pool
        /\ upf_ippool u = Some pool)
  /\ (cp_EnableUeIPAlloc (conf_CPIface conf) = false -> upf_ippool u = None).
Proof.
  intros Ho. destruct (NewUPF_context_of env conf fp w u Ho) as (t & Hf).
  destruct Hf as (_ & _ & _ & _ & _ & _ & _ & _ & _ & Hpool & _ & _ & _ & Hen).
  repeat apply conj; [exact Hen | |]; intros E; now rewrite E in Hpool.
Qed.


(** X7. In the context [NewUPF] returns, [Hostname] is the configured
    node identity as it stands, also when it is empty and the host name
    was asked for.  [NodeID] is the first address to which the name of
    the node resolves (the configured identity, or the host name when the
    identity is empty and the FQDN is asked for), and is empty, without
    any resolution, when that name is empty.  The host name is asked for
    exactly when the FQDN is wanted and the identity is empty. *)
Theorem NewUPF_node_identity
    (env : Env) (conf : Conf) (fp : datapath) (w : World B)
    (u : upf) (t : list Event) :
  outcome (NewUPF env conf fp) w = Ret (Some u) ->
  w_trace (world_after (NewUPF env conf fp) w) = (w_trace w ++ t)%list ->
  upf_Hostname u = cp_NodeID (conf_CPIface conf)
  /\ existsb is_FqdnHostname t
     = cp_UseFQDN (conf_CPIface conf)
       && String.eqb (cp_NodeID (conf_CPIface conf)) ""
  /\ (startup_identity env conf = "" ->
      upf_NodeID u = "" /\ existsb is_LookupHost t = false)
  /\ (startup_identity env conf <> "" ->
      existsb is_LookupHost t = true
      /\ exists rest : list string,
          env_LookupHost env (startup_identity env conf)
          = Success (upf_NodeID u :: rest)).
Proof.
  intros Ho Ht.
  destruct (NewUPF_returns_context env conf fp w u t Ho Ht)
    as (_ & Hfqdn & _ & _ & _ & _ & Hhost & Hid & Hlook & _).
  repeat apply conj; try assumption.
  - intros E. rewrite E in Hid, Hlook. simpl in Hid, Hlook. now split.
  - intros Hne. apply String.eqb_neq in Hne. rewrite Hne in Hid, Hlook.
    simpl in Hid, Hlook. split; [exact Hlook |].
    destruct (env_LookupHost env (startup_identity env conf)) as [[| h rest] | e];
      try contradiction.
    exists rest. now rewrite Hid.
Qed.

(** X8. When [NewUPF] returns a context it calls the backend's
    [SetUpfInfo] exactly once, with that very context, complete, and the
    configuration; the call comes after every look-up and parse, and only
    the five printed lines follow it.  The backend is then the one
    [SetUpfInfo] leaves. *)
Theorem NewUPF_wires_backend_once
    (env : Env) (conf : Conf) (fp : datapath) (w : World B)
    (u : upf) (t : list Event) :
  outcome (NewUPF env conf fp) w = Ret (Some u) ->
  w_trace (world_after (NewUPF env conf fp) w) = (w_trace w ++ t)%list ->
  filter is_SetUpfInfo t = [EvSetUpfInfo u conf]
  /\ skipn (length t - 6) t = EvSetUpfInfo u conf :: upf_info u
  /\ w_backend (world_after (NewUPF env conf fp) w)
     = dp_SetUpfInfo fp (w_backend w) u conf.
Proof.
  intros Ho Ht.
  destruct (NewUPF_returns_context env conf fp w u t Ho Ht)
    as (_ & _ & Honce & Hlast & Hb & _).
  now repeat apply conj.
Qed.

(** X9. When [NewUPF] returns nil, ends the process or panics, it has
    not called [SetUpfInfo] and the backend is as it was. *)
Theorem NewUPF_no_context_no_wiring
    (env : Env) (conf : Conf) (fp : datapath) (w : World B) (t : list Event) :
  returns_context (outcome (NewUPF env conf fp) w) = false ->
  w_trace (world_after (NewUPF env conf fp) w) = (w_trace w ++ t)%list ->
  filter is_SetUpfInfo t = []
  /\ w_backend (world_after (NewUPF env conf fp) w) = w_backend w.
Proof.
  intros Hno Ht.
  destruct (NewUPF_context env conf fp w)
    as (t0 & w' & o & Hrun & Ht0 & _ & _ & Hf).
  unfold outcome in Hno. unfold world_after in Ht |- *. unfold run in Hrun.
  rewrite Hrun in Hno, Ht |- *. simpl in Hno, Ht |- *.
  rewrite Ht0 in Ht. apply app_inv_head in Ht. subst t0.
  destruct o as [[u |] | c | s |]; try exact Hf.
  discriminate Hno.
Qed.

(** X10. For a read timeout that fits in 32 bits, the context [NewUPF]
    returns holds it as that many seconds: the conversion to nanoseconds
    does not overflow. *)
Theorem NewUPF_readTimeout_seconds
    (env : Env) (conf : Conf) (fp : datapath) (w : World B) (u : upf) :
  outcome (NewUPF env conf fp) w = Ret (Some u) ->
  0 <= conf_ReadTimeout conf <= 4294967295 ->
  upf_readTimeout u = conf_ReadTimeout conf * Second
  /\ 0 <= upf_readTimeout u < 2^63.
Proof.
  intros Ho Hrange. destruct (NewUPF_context_of env conf fp w u Ho) as (t & Hf).
  destruct Hf as (_ & _ & _ & _ & _ & _ & _ & _ & _ & _ & _ & Hrt & _).
  rewrite Hrt. unfold Second in *.
  rewrite (wrap_int64_small (conf_ReadTimeout conf)) by lia.
  rewrite wrap_int64_small by lia. lia.
Qed.

End ContextClaims.

Lemma NewUPF_peers_copied_witness :
  upf_peers (fqdn_upf true) = ["smf1"; "smf2"]
  /\ existsb is_warning (fqdn_trace true) = false.
Proof.
  apply (NewUPF_peers_copied (sample_env None) (fqdn_conf true) UP4 sample_world);
    vm_compute; reflexivity.
Defined.

Lemma NewUPF_timers_witness :
  env_ParseDuration (sample_env None) "5s" = Success (upf_hbInterval (fqdn_upf true)).
Proof.
  assert (Hret : outcome (NewUPF (sample_env None) (fqdn_conf true) UP4) sample_world
                 = Ret (Some (fqdn_upf true))) by (vm_compute; reflexivity).
  destruct (NewUPF_timers (sample_env None) (fqdn_conf true) UP4 sample_world _ Hret)
    as (_ & _ & Hhb & _).
  apply Hhb; [reflexivity | discriminate].
Defined.

Lemma NewUPF_ippool_witness :
  exists pool : IPPool,
    env_NewIPPool (sample_env None) "10.250.0.0/16" = Success pool
    /\ upf_ippool (fqdn_upf true) = Some pool.
Proof.
  assert (Hret : outcome (NewUPF (sample_env None) (fqdn_conf true) UP4) sample_world
                 = Ret (Some (fqdn_upf true))) by (vm_compute; reflexivity).
  destruct (NewUPF_ippool (sample_env None) (fqdn_conf true) UP4 sample_world _ Hret)
    as (_ & Hpool & _).
  apply Hpool. reflexivity.
Defined.


Lemma NewUPF_node_identity_witness :
  upf_Hostname (fqdn_upf true) = ""
  /\ existsb is_FqdnHostname (fqdn_trace true) = true.
Proof.
  assert (Hret : outcome (NewUPF (sample_env None) (fqdn_conf true) UP4) sample_world
                 = Ret (Some (fqdn_upf true))) by (vm_compute; reflexivity).
  assert (Htr : w_trace (world_after (NewUPF (sample_env None) (fqdn_conf true) UP4)
                                     sample_world)
                = (w_trace sample_world ++ fqdn_trace true)%list)
    by (vm_compute; reflexivity).
  destruct (NewUPF_node_identity (sample_env None) (fqdn_conf true) UP4 sample_world
              _ _ Hret Htr) as (Hhost & Hfqdn & _).
  split; [exact Hhost | exact Hfqdn].
Defined.

Lemma NewUPF_wires_backend_once_witness :
  filter is_SetUpfInfo (fqdn_trace true)
  = [EvSetUpfInfo (fqdn_upf true) (fqdn_conf true)].
Proof.
  assert (Hret : outcome (NewUPF (sample_env None) (fqdn_conf true) UP4) sample_world
                 = Ret (Some (fqdn_upf true))) by (vm_compute; reflexivity).
  assert (Htr : w_trace (world_after (NewUPF (sample_env None) (fqdn_conf true) UP4)
                                     sample_world)
                = (w_trace sample_world ++ fqdn_trace true)%list)
    by (vm_compute; reflexivity).
  destruct (NewUPF_wires_backend_once (sample_env None) (fqdn_conf true) UP4
              sample_world _ _ Hret Htr) as (Honce & _).
  exact Honce.
Defined.

Lemma NewUPF_no_context_no_wiring_witness :
  filter is_SetUpfInfo
    [EvGetUnicastAddress "access" (Success [Byte.x0a; Byte.x00; Byte.x00; Byte.x01]);
     EvGetUnicastAddress "core" (Failure (GoError "no unicast address"));
     EvLog LvError "" (Some (GoError "no unicast address"))] = [].
Proof.
  refine (proj1 (NewUPF_no_context_no_wiring (sample_env None)
                   (sample_conf false false "2s" "") bess sample_world _ _ _));
    reflexivity.
Defined.

Lemma NewUPF_readTimeout_seconds_witness :
  upf_readTimeout (fqdn_upf true) = 15 * Second.
Proof.
  assert (Hret : outcome (NewUPF (sample_env None) (fqdn_conf true) UP4) sample_world
                 = Ret (Some (fqdn_upf true))) by (vm_compute; reflexivity).
  destruct (NewUPF_readTimeout_seconds (sample_env None) (fqdn_conf true) UP4
              sample_world _ Hret) as (Hrt & _).
  - simpl. lia.
  - exact Hrt.
Defined.

(** ** Run, Stop and the registration, further *)


Section RunFacts.
Context {B : Type} `{DatapathOps B}.

Lemma no_exit_PushPFCPInfoNew (env : Env) (fuel : nat) :
  no_exit (PushPFCPInfoNew (B:=B) env fuel).
Proof.
  unfold PushPFCPInfoNew, GetLocalIP, Println, log_Errorln.
  apply no_exit_bind.
  { destruct (env_InterfaceAddrs env); auto with noexit. }
  intros ip. repeat (apply no_exit_bind; [apply no_exit_emit | intros _]).
  apply no_exit_bind.
  { destruct (env_NewRequest env); auto with noexit. }
  intros [req |]; [apply no_exit_loop | apply no_exit_panic].
Qed.

(** Every run of [Run], by its three ways. *)
Lemma Run_ways (env : Env) (fuel : nat) (p : PFCPIface) (w : World B) :
  (Run_continues env = false
   /\ run (Run env fuel p) w =
      ({| w_trace := (w_trace w ++ [EvSim])%list; w_backend := w_backend w |},
       Ret p))
  \/ (Run_continues env = true
      /\ exists e, env_setupProm env = Some e
      /\ run (Run env fuel p) w =
         ({| w_trace := (w_trace w
                         ++ (if sim_enable (env_simulate env) then [EvSim] else [])
                         ++ [EvLock; EvNewPFCPNode; EvSetupConfigHandler;
                             EvSetupProm (Some e);
                             EvLog LvFatal "setupProm failed" (Some e)])%list;
             w_backend := w_backend w |}, Exit 1))
  \/ (Run_continues env = true
      /\ env_setupProm env = None
      /\ exists (t : list Event) (w2 : World B) (o : Outcome unit),
          run (PushPFCPInfoNew env fuel)
              {| w_trace := (w_trace w ++ Run_prelude env)%list;
                 w_backend := w_backend w |} = (w2, o)
          /\ w_trace w2 = (w_trace w ++ Run_prelude env ++ t)%list
          /\ Forall (push_event env (registration_request (local_ip env))) t
          /\ (o = Ret tt -> post_succeeded t = true)
          /\ exits o = false
          /\ run (Run env fuel p) w =
             match o with
             | Ret _ =>
                 ({| w_trace := (w_trace w2 ++ [EvNodeServe])%list;
                     w_backend := w_backend w2 |}, Ret (initialised p))
             | Exit c => (w2, Exit c)
             | Panic s => (w2, Panic s)
             | OutOfFuel => (w2, OutOfFuel)
             end).
Proof.
  destruct (Run_continues env) eqn:Hc.
  2: { left. split; [reflexivity | now apply Run_simulation_only]. }
  right. destruct (env_setupProm env) as [e |] eqn:Hprom.
  { left. split; [reflexivity |]. exists e. split; [reflexivity |].
    now apply Run_setup_fails. }
  right. split; [reflexivity |]. split; [reflexivity |].
  destruct (PushPFCPInfoNew_cases env fuel
              {| w_trace := (w_trace w ++ Run_prelude env)%list;
                 w_backend := w_backend w |})
    as (t & w2 & o & Hrun & Ht & Hq & Hs).
  exists t, w2, o. simpl in Ht.
  pose proof (no_exit_PushPFCPInfoNew env fuel
                {| w_trace := (w_trace w ++ Run_prelude env)%list;
                   w_backend := w_backend w |}) as Hne.
  unfold outcome in Hne. unfold run in Hrun. rewrite Hrun in Hne. simpl in Hne.
  repeat apply conj; try assumption.
  - rewrite Ht. now rewrite <- app_assoc.
  - rewrite (Run_registers_then_serves env fuel p w Hc Hprom).
    unfold run. rewrite Hrun. now destruct o as [[] | | |].
Qed.

(** X11. [Run] returns in two ways only.  When the simulation is
    enabled without [keepGoing], it returns right after the simulation,
    the interface untouched: no set-up, no goroutine, no signal
    registration, no request.  Otherwise it returns only after node
    serving, with the interface as [mustInit] set it up, and a
    registration request has succeeded between the set-up and the
    serving. *)
Theorem Run_returns
    (env : Env) (fuel : nat) (p p1 : PFCPIface) (w : World B) (t : list Event) :
  outcome (Run env fuel p) w = Ret p1 ->
  w_trace (world_after (Run env fuel p) w) = (w_trace w ++ t)%list ->
  (Run_continues env = false /\ p1 = p /\ t = [EvSim])
  \/ (Run_continues env = true
      /\ env_setupProm env = None
      /\ p1 = initialised p
      /\ exists t' : list Event,
          t = (Run_prelude env ++ t' ++ [EvNodeServe])%list
          /\ post_succeeded t' = true
          /\ existsb is_NodeServe t' = false).
Proof.
  intros Ho Ht. unfold outcome in Ho. unfold world_after in Ht.
  destruct (Run_ways env fuel p w)
    as [(Hc & Hrun) | [(Hc & e & Hprom & Hrun)
                      | (Hc & Hprom & t' & w2 & o & Hpush & Ht' & Hq & Hs & _ & Hrun)]];
    unfold run in Hrun; rewrite Hrun in Ho, Ht.
  - left. simpl in Ho, Ht. apply app_inv_head in Ht. simplify_eq. now repeat split.
  - discriminate Ho.
  - right. destruct o as [[] | c | s |]; try discriminate Ho.
    simpl in Ho, Ht. simplify_eq.
    rewrite Ht' in Ht. rewrite <- !app_assoc in Ht. apply app_inv_head in Ht.
    repeat split; try assumption.
    exists t'. repeat split; [now symmetry | now apply Hs |].
    now destruct (push_events_quiet _ _ _ Hq).
Qed.


(** X13. Of the signals, only SIGINT and SIGTERM reach the signal waiter
    that [Run] starts: SIGHUP, SIGQUIT and SIGKILL are not registered and
    do not trigger the shutdown. *)
Theorem only_INT_and_TERM_delivered
    (env : Env) (fuel : nat) (p : PFCPIface) (w : World B)
    (t : list Event) (s : Signal) :
  w_trace (world_after (Run env fuel p) w) = (w_trace w ++ t)%list ->
  In (EvGo GoSignalWaiter) t ->
  delivered t s = true <-> s = SIGINT \/ s = SIGTERM.
Proof.
  intros Ht Hgo.
  destruct (Run_cases env fuel p w)
    as (t1 & w1 & o1 & Hr1 & Ht1 & _ & _ & Hsig & _).
  unfold world_after in Ht. unfold run in Hr1. rewrite Hr1 in Ht. simpl in Ht.
  rewrite Ht1 in Ht. apply app_inv_head in Ht. subst t1.
  unfold delivered. rewrite (Hsig Hgo).
  destruct s; simpl; split; intros Hs; try discriminate; auto;
    destruct Hs as [Hs | Hs]; discriminate.
Qed.

(** X14. Whenever [Run] starts the signal waiter, its events begin with
    the whole prelude, in this order: the simulation if enabled, the
    set-up under the mutex, released, the HTTP server goroutine, the
    registrations of SIGINT and SIGTERM, the signal waiter.  Nothing
    after the prelude starts a goroutine or registers a signal, and every
    registration request comes after it. *)
Theorem Run_prelude_first
    (env : Env) (fuel : nat) (p : PFCPIface) (w : World B) (t : list Event) :
  w_trace (world_after (Run env fuel p) w) = (w_trace w ++ t)%list ->
  In (EvGo GoSignalWaiter) t ->
  env_setupProm env = None
  /\ exists rest : list Event,
      t = (Run_prelude env ++ rest)%list
      /\ existsb is_Go rest = false
      /\ notified rest = []
      /\ existsb is_ClientDo (Run_prelude env) = false.
Proof.
  intros Ht Hgo. unfold world_after in Ht.
  assert (Hpre : existsb is_ClientDo (Run_prelude env) = false).
  { unfold Run_prelude. now destruct (sim_enable (env_simulate env)). }
  destruct (Run_ways env fuel p w)
    as [(Hc & Hrun) | [(Hc & e & Hprom & Hrun)
                      | (Hc & Hprom & t' & w2 & o & Hpush & Ht' & Hq & Hs & Hne & Hrun)]];
    unfold run in Hrun; rewrite Hrun in Ht.
  - simpl in Ht. apply app_inv_head in Ht. subst t. no_such_event Hgo.
  - simpl in Ht. apply app_inv_head in Ht. subst t.
    destruct (sim_enable (env_simulate env)); no_such_event Hgo.
  - split; [exact Hprom |].
    destruct (push_events_quiet _ _ _ Hq) as (Hq1 & Hq2 & Hq3 & _).
    assert (Hnogo : existsb is_Go t' = false).
    { destruct (existsb is_Go t') eqn:E; [| reflexivity].
      apply existsb_exists in E. destruct E as (x & Hin & Hx).
      destruct x; try discriminate. now apply Hq3 in Hin. }
    destruct o as [[] | c | s |]; simpl in Ht;
      rewrite Ht' in Ht; rewrite <- ?app_assoc in Ht; apply app_inv_head in Ht;
      subst t.
    + exists (t' ++ [EvNodeServe])%list.
      repeat split; [| | exact Hpre].
      * rewrite existsb_app, Hnogo. reflexivity.
      * rewrite notified_app, Hq2. reflexivity.
    + exists t'. now repeat split.
    + exists t'. now repeat split.
    + exists t'. now repeat split.
Qed.

(** X15. [Stop] on the interface as [NewPFCPIface] returns it, before
    [mustInit], panics on the nil HTTP server: it does not stop the node
    or wait for it, and the deferred cancel and unlock still run. *)
Theorem Stop_before_mustInit
    (env env' : Env) (conf : Conf) (p : PFCPIface) (w0 w : World B) :
  outcome (NewPFCPIface env conf) w0 = Ret p ->
  p_httpSrv p = None
  /\ p_node p = None
  /\ run (Stop env' p) w =
     ({| w_trace := (w_trace w ++ [EvLock; EvCancel; EvUnlock])%list;
         w_backend := w_backend w |}, Panic nil_dereference).
Proof.
  intros Ho. unfold outcome in Ho.
  pose proof (NewPFCPIface_run env conf w0) as Hrun. simpl in Hrun.
  unfold run in Hrun. rewrite Hrun in Ho. simpl in Ho.
  destruct (snd (NewUPF env conf _ _)) as [u | c | s |]; simplify_eq.
  repeat split.
  unfold run, Stop, with_defer, bind, emit, panic, ret. simpl.
  now rewrite <- !app_assoc.
Qed.

(** X16. After [NewPFCPIface] and [mustInit], the HTTP server listens on
    the configured port, or on port 8080 when none is configured, on all
    addresses, with a header read timeout of sixty seconds; the node is
    built over the runtime context of the interface, nil included; and
    [mustInit] has released the mutex when it returns. *)
Theorem http_server_endpoint
    (env env' : Env) (conf : Conf) (p p1 : PFCPIface) (w0 w : World B) :
  outcome (NewPFCPIface env conf) w0 = Ret p ->
  outcome (mustInit env' p) w = Ret p1 ->
  p_httpSrv p1
  = Some {| srv_Addr :=
              ":" ++ (if String.eqb (cp_HTTPPort (conf_CPIface conf)) ""
                      then "8080" else cp_HTTPPort (conf_CPIface conf));
            srv_ReadHeaderTimeout := 60 * Second |}
  /\ p_node p1 = Some {| node_upf := p_upf p |}
  /\ p_upf p1 = p_upf p
  /\ w_trace (world_after (mustInit env' p) w)
     = (w_trace w ++ [EvLock; EvNewPFCPNode; EvSetupConfigHandler;
                      EvSetupProm None; EvUnlock])%list.
Proof.
  intros Ho Hinit. unfold outcome in Ho.
  pose proof (NewPFCPIface_run env conf w0) as Hrun. simpl in Hrun.
  unfold run in Hrun. rewrite Hrun in Ho. simpl in Ho.
  destruct (snd (NewUPF env conf _ _)) as [u | c | s |]; simplify_eq.
  revert Hinit.
  unfold outcome, world_after, mustInit, with_defer, bind, emit, log_Fatalln, ret.
  simpl. destruct (env_setupProm env'); simpl; intros Hinit; simplify_eq.
  simpl. repeat split.
  - now destruct (String.eqb (cp_HTTPPort (conf_CPIface conf)) "").
  - now rewrite <- !app_assoc.
Qed.


End RunFacts.

Lemma Run_returns_witness :
  (Run_continues (sample_env (Some 1%nat)) = false
   /\ initialised sample_iface = sample_iface /\ sample_run_trace = [EvSim])
  \/ (Run_continues (sample_env (Some 1%nat)) = true
      /\ env_setupProm (sample_env (Some 1%nat)) = None
      /\ initialised sample_iface = initialised sample_iface
      /\ exists t' : list Event,
          sample_run_trace
          = (Run_prelude (sample_env (Some 1%nat)) ++ t' ++ [EvNodeServe])%list
          /\ post_succeeded t' = true
          /\ existsb is_NodeServe t' = false).
Proof.
  apply (Run_returns (sample_env (Some 1%nat)) 3 sample_iface
           (initialised sample_iface) sample_world sample_run_trace);
    vm_compute; reflexivity.
Defined.


Lemma only_INT_and_TERM_delivered_witness :
  delivered sample_run_trace SIGHUP = true <-> SIGHUP = SIGINT \/ SIGHUP = SIGTERM.
Proof.
  apply (only_INT_and_TERM_delivered (sample_env (Some 1%nat)) 3 sample_iface
           sample_world sample_run_trace SIGHUP).
  - vm_compute. reflexivity.
  - vm_compute. auto 20.
Defined.

Lemma Run_prelude_first_witness :
  env_setupProm (sample_env (Some 1%nat)) = None
  /\ exists rest : list Event,
      sample_run_trace = (Run_prelude (sample_env (Some 1%nat)) ++ rest)%list
      /\ existsb is_Go rest = false
      /\ notified rest = []
      /\ existsb is_ClientDo (Run_prelude (sample_env (Some 1%nat))) = false.
Proof.
  apply (Run_prelude_first (sample_env (Some 1%nat)) 3 sample_iface sample_world
           sample_run_trace).
  - vm_compute. reflexivity.
  - vm_compute. auto 20.
Defined.

Lemma Stop_before_mustInit_witness :
  p_httpSrv fresh_iface = None
  /\ p_node fresh_iface = None
  /\ run (Stop (sample_env None) fresh_iface) sample_world =
     ({| w_trace := (w_trace sample_world ++ [EvLock; EvCancel; EvUnlock])%list;
         w_backend := w_backend sample_world |}, Panic nil_dereference).
Proof.
  apply (Stop_before_mustInit (sample_env None) (sample_env None) (fqdn_conf true)
           fresh_iface sample_world sample_world).
  vm_compute. reflexivity.
Defined.

Lemma http_server_endpoint_witness :
  p_httpSrv (initialised fresh_iface)
  = Some {| srv_Addr := ":9090"; srv_ReadHeaderTimeout := 60 * Second |}.
Proof.
  assert (Hnew : outcome (NewPFCPIface (sample_env None) (fqdn_conf true)) sample_world
                 = Ret fresh_iface) by (vm_compute; reflexivity).
  assert (Hinit : outcome (mustInit (sample_env None) fresh_iface) sample_world
                  = Ret (initialised fresh_iface)) by (vm_compute; reflexivity).
  destruct (http_server_endpoint (sample_env None) (sample_env None) (fqdn_conf true)
              fresh_iface (initialised fresh_iface) sample_world sample_world
              Hnew Hinit) as (Hsrv & _).
  exact Hsrv.
Defined.

